(** * tg-translator-bot: a shallow embedding of [src/index.js]

    The worker relays messages between guests and one admin over the
    Telegram Bot API, keeps its state in two SQL tables ([users] and
    [messages], see the schema file) and optionally asks a chat-completion
    service for a translation.

    The embedding follows the source function by function.  The store and
    the record of everything sent over the network are threaded through a
    small state-and-exception monad; what the network answers is an input
    of the model. *)

From Stdlib Require Import ZArith List Lia String Ascii DecimalString.
From stdpp Require Import gmap list.

Open Scope Z_scope.

(** ** JavaScript strings

    A JavaScript string is a sequence of UTF-16 code units: [length],
    [substring], [split] and [startsWith] all count code units. *)

Abbreviation jsstring := (list N).

(** An ASCII literal as code units. *)
Definition u16 (s : string) : jsstring :=
  map N_of_ascii (list_ascii_of_string s).

(** Number-to-string conversion of an integer (template literals). *)
Definition Z_to_js (z : Z) : jsstring :=
  u16 (NilZero.string_of_int (Z.to_int z)).

(** Truthiness of a string that may be missing ([undefined] or [NULL]). *)
Definition truthy_str (s : option jsstring) : bool :=
  match s with
  | Some (_ :: _) => true
  | _ => false
  end.

(** [a || b] on strings. *)
Definition str_or (a : option jsstring) (b : jsstring) : jsstring :=
  match a with
  | Some (c :: s) => c :: s
  | _ => b
  end.

(** [s.startsWith(p)] *)
Definition startsWith (s p : jsstring) : bool :=
  bool_decide (take (length p) s = p).

(** [s.split(sep)] for a one-unit separator. *)
Fixpoint split (sep : N) (s : jsstring) : list jsstring :=
  match s with
  | [] => [[]]
  | c :: s' =>
      if decide (c = sep) then [] :: split sep s'
      else match split sep s' with
           | seg :: rest => (c :: seg) :: rest
           | [] => [[c]]
           end
  end.

(** [s.substring(0, n)] *)
Definition substring0 (n : nat) (s : jsstring) : jsstring := take n s.

Definition LF : N := 10%N.
Definition QUOTE : N := 34%N.
Definition UNDERSCORE : N := 95%N.
Definition CHECK_MARK : jsstring := [0x2705%N].
Definition CROSS_MARK : jsstring := [0x274C%N].
Definition WARNING_SIGN : jsstring := [0x26A0%N; 0xFE0F%N].
Definition ENVELOPE : jsstring := [0xD83D%N; 0xDCE9%N].

(** ** Configuration and constants *)

Definition DEFAULT_LANG : jsstring := u16 "en".

(** The own properties of [SUPPORTED_LANGS], in insertion order. *)
Definition SUPPORTED_LANGS : list (jsstring * jsstring) :=
  [ (u16 "zh", u16 "Chinese");
    (u16 "en", u16 "English");
    (u16 "ja", u16 "Japanese");
    (u16 "ru", u16 "Russian") ].

(** [SUPPORTED_LANGS] is an object literal, so a property read that misses
    the own properties continues on [Object.prototype].  What such a read
    yields is a function (or, for [__proto__], the prototype object). *)
Definition OBJECT_PROTOTYPE : list jsstring :=
  [ u16 "constructor"; u16 "toString"; u16 "toLocaleString"; u16 "valueOf";
    u16 "hasOwnProperty"; u16 "isPrototypeOf"; u16 "propertyIsEnumerable";
    u16 "__proto__"; u16 "__defineGetter__"; u16 "__defineSetter__";
    u16 "__lookupGetter__"; u16 "__lookupSetter__" ].

Inductive PropValue :=
  | PString (s : jsstring)      (* an own property: the display name *)
  | PInherited (key : jsstring) (* a member of Object.prototype *)
  | PUndefined.

Fixpoint assoc (k : jsstring) (l : list (jsstring * jsstring)) : option jsstring :=
  match l with
  | [] => None
  | (k', v) :: l' => if decide (k = k') then Some v else assoc k l'
  end.

(** [SUPPORTED_LANGS[key]] *)
Definition SUPPORTED_LANGS_get (key : jsstring) : PropValue :=
  match assoc key SUPPORTED_LANGS with
  | Some name => PString name
  | None => if bool_decide (key ∈ OBJECT_PROTOTYPE) then PInherited key
            else PUndefined
  end.

(** The text a template literal gives for a member of [Object.prototype]
    (V8 prints native functions this way; [__proto__] is the prototype
    object itself). *)
Definition inherited_to_string (key : jsstring) : jsstring :=
  if decide (key = u16 "__proto__") then u16 "[object Object]"
  else if decide (key = u16 "constructor")
       then u16 "function Object() { [native code] }"
       else u16 "function " ++ key ++ u16 "() { [native code] }".

(** [`${SUPPORTED_LANGS[langCode] || langCode}`] *)
Definition display_name (langCode : jsstring) : jsstring :=
  match SUPPORTED_LANGS_get langCode with
  | PString (c :: s) => c :: s
  | PString [] => langCode
  | PInherited key => inherited_to_string key
  | PUndefined => langCode
  end.

(** ** Data model *)

(** A row of table [users]; [user_id] is the primary key and so the key of
    the map that holds the table. *)
Record UserRow := {
  username : option jsstring;
  first_name : jsstring;
  is_verified : Z;
  language : option jsstring;
  is_blocked : Z;
  blocked_at : option jsstring;
  created_at : Z
}.

(** A row of table [messages].  Only the autoincrement [id] is a key:
    [admin_message_id] carries a plain (non-unique) index. *)
Record MessageRow := {
  admin_message_id : Z;
  user_id : Z;
  guest_message_id : Z;
  msg_created_at : Z
}.

(** The sender of an inbound event ([message.from], [callback.from]).
    Telegram leaves [username] out for an account that has none, so
    [from_username] is [None] when [user.username] is [undefined]. *)
Record TgUser := {
  id : Z;
  from_username : option jsstring;
  from_first_name : jsstring
}.

(** An inbound message, reduced to the fields the worker reads. *)
Record Message := {
  from : TgUser;
  chat_id : Z;
  message_id : Z;
  text : option jsstring;
  photo : bool;
  video : bool;
  document : bool;
  voice : bool;
  audio : bool;
  animation : bool;
  caption : option jsstring;
  reply_to_message : option Z   (* reply_to_message.message_id *)
}.

(** An inbound callback query. *)
Record Callback := {
  cb_id : jsstring;
  cb_from : TgUser;
  cb_data : jsstring;
  cb_message_id : Z             (* callback.message.message_id *)
}.

Inductive Update :=
  | UMessage (m : Message)
  | UCallback (c : Callback)
  | UOther.

Record Button := { btn_text : jsstring; callback_data : jsstring }.

(** ** The network *)

(** Every request the worker can issue: four Bot API methods and the
    chat-completion call of [translateText]. *)
Inductive Request :=
  | sendMessage (chat : Z) (body : jsstring) (parse_mode : option jsstring)
      (reply_markup : option (list (list Button)))
      (reply_to_message_id : option Z)
  | copyMessage (chat from_chat msg : Z) (new_caption : option jsstring)
      (parse_mode : option jsstring)
  | answerCallbackQuery (callback_query_id : jsstring) (body : jsstring)
  | editMessageText (chat msg : Z) (body : jsstring)
  | chatCompletions (bearer : jsstring) (system_content user_content : jsstring).

(** The JSON body of an answer, reduced to the two paths the worker reads:
    [res.result] (absent when the Bot API reports [ok: false]; when present
    it carries [message_id]) and [data.choices?.[0]?.message?.content]. *)
Record Json := {
  result : option Z;
  content : option jsstring
}.

(** A [fetch] either rejects (or its body fails to parse), which surfaces
    as an exception carrying a message, or yields a JSON body.  An error
    reported by the Bot API itself is a body without [result]. *)
Inductive Outcome :=
  | Rejects (message : jsstring)
  | Responds (data : Json).

(** Bindings of the worker. [ADMIN_USER_ID] is held already parsed. *)
Record Env := {
  TELEGRAM_BOT_TOKEN : jsstring;
  TELEGRAM_WEBHOOK_SECRET : option jsstring;
  ADMIN_USER_ID : Z;
  SILICONFLOW_API_KEY : option jsstring
}.

(** ** The world a unit of work runs in *)

Record World := {
  users : gmap Z UserRow;          (* table users *)
  messages : list MessageRow;      (* table messages, in rowid order *)
  requests : list Request;         (* requests issued so far, oldest first *)
  translations : list (jsstring * jsstring);
                                   (* calls of translateText so far *)
  net : nat -> Outcome;            (* the answer to the n-th request *)
  now : Z                          (* Date.now() *)
}.

Definition set_users (f : gmap Z UserRow -> gmap Z UserRow) (w : World) : World :=
  {| users := f (users w); messages := messages w; requests := requests w;
     translations := translations w; net := net w; now := now w |}.

Definition set_messages (f : list MessageRow -> list MessageRow) (w : World) : World :=
  {| users := users w; messages := f (messages w); requests := requests w;
     translations := translations w; net := net w; now := now w |}.

Definition push_request (r : Request) (w : World) : World :=
  {| users := users w; messages := messages w; requests := requests w ++ [r];
     translations := translations w; net := net w; now := now w |}.

Definition push_translation (t : jsstring * jsstring) (w : World) : World :=
  {| users := users w; messages := messages w; requests := requests w;
     translations := translations w ++ [t]; net := net w; now := now w |}.

(** ** Asynchronous code as a state-and-exception monad *)

Inductive Res (A : Type) :=
  | Ok (a : A)
  | Throw (message : jsstring).
Arguments Ok {A} a.
Arguments Throw {A} message.

Definition M (A : Type) : Type := World -> Res A * World.

Definition ret {A} (a : A) : M A := fun w => (Ok a, w).

Definition throw {A} (e : jsstring) : M A := fun w => (Throw e, w).

Definition bind {A B} (c : M A) (k : A -> M B) : M B :=
  fun w =>
    match c w with
    | (Ok a, w') => k a w'
    | (Throw e, w') => (Throw e, w')
    end.

(** [try { c } catch (e) { h(e.message) }] *)
Definition try_catch {A} (c : M A) (h : jsstring -> M A) : M A :=
  fun w =>
    match c w with
    | (Ok a, w') => (Ok a, w')
    | (Throw e, w') => h e w'
    end.

Definition get : M World := fun w => (Ok w, w).
Definition modify (f : World -> World) : M unit := fun w => (Ok tt, f w).

Notation "'await' x ':=' c 'in' k" := (bind c (fun x => k))
  (at level 10, x name, c at level 100, k at level 200).
Notation "'await!' c 'in' k" := (bind c (fun _ => k))
  (at level 10, c at level 100, k at level 200).

(** [fetch] followed by [response.json()]: the request is recorded and its
    answer is the one the network holds for that position. *)
Definition fetch (r : Request) : M Json :=
  fun w =>
    let w' := push_request r w in
    match net w (length (requests w)) with
    | Rejects e => (Throw e, w')
    | Responds data => (Ok data, w')
    end.

(** ** Helper functions *)

(** [callTelegram(method, payload, env)]: one POST to the Bot API; the
    method and its payload are the constructor and its arguments. *)
Definition callTelegram (r : Request) (env : Env) : M Json := fetch r.

Definition translate_prompt (targetLang : jsstring) : jsstring :=
  u16 "Translate the following text to " ++ targetLang
  ++ u16 ". Only return the translated text.".

(** [translateText(text, targetLang, env)].  Entering the function is
    recorded in [translations], which nothing in the worker reads. *)
Definition translateText (text targetLang : jsstring) (env : Env) : M jsstring :=
  await! modify (push_translation (text, targetLang)) in
  match SILICONFLOW_API_KEY env with
  | Some (c :: key) =>
      try_catch
        (await data := fetch (chatCompletions (c :: key)
                                (translate_prompt targetLang) text) in
         ret (str_or (content data) text))
        (fun _ => ret text)
  | _ => ret text
  end.

(** ** Database helpers *)

Definition getUser (userId : Z) : M (option UserRow) :=
  await w := get in ret (users w !! userId).

Definition new_row (user : TgUser) (t : Z) : UserRow :=
  {| username := from_username user; first_name := from_first_name user;
     is_verified := 0; language := None; is_blocked := 0;
     blocked_at := None; created_at := t |}.

Definition set_names (user : TgUser) (r : UserRow) : UserRow :=
  {| username := from_username user; first_name := from_first_name user;
     is_verified := is_verified r; language := language r;
     is_blocked := is_blocked r; blocked_at := blocked_at r;
     created_at := created_at r |}.

(** What [upsertUser] returns: the object [{ is_new: true }], which has
    none of the columns, or the row as it was read. *)
Inductive Upserted :=
  | IsNew
  | Existing (row : UserRow).

(** The fault D1 raises when [undefined] is bound to a statement. *)
Definition D1_TYPE_ERROR : jsstring :=
  u16 "D1_TYPE_ERROR: Type 'undefined' not supported for value 'undefined'".

(** Both statements bind [user.username].  When it is [undefined] the
    binding faults: on the insert of a new user, and on the update of a
    known one, which is always attempted then, since no stored value, not
    even [NULL], is identical to [undefined]. *)
Definition upsertUser (user : TgUser) : M Upserted :=
  await existing := getUser (id user) in
  match existing with
  | None =>
      match from_username user with
      | None => throw D1_TYPE_ERROR
      | Some _ =>
          await w := get in
          await! modify (set_users (insert (id user) (new_row user (now w)))) in
          ret IsNew
      end
  | Some row =>
      await! (match from_username user with
              | None => throw D1_TYPE_ERROR
              | Some name =>
                  if bool_decide (username row = Some name
                                  /\ first_name row = from_first_name user)
                  then ret tt
                  else modify (set_users (alter (set_names user) (id user)))
              end) in
      ret (Existing row)
  end.

Definition saveMessageMapping (adminMsgId userId guestMsgId : Z) : M unit :=
  await w := get in
  modify (set_messages (fun rows =>
    rows ++ [ {| admin_message_id := adminMsgId; user_id := userId;
                 guest_message_id := guestMsgId; msg_created_at := now w |} ])).

(** [SELECT user_id, guest_message_id ... WHERE admin_message_id = ?]
    followed by [first()]: rows with equal keys come in rowid order. *)
Definition getOriginalSender (adminMsgId : Z) : M (option (Z * Z)) :=
  await w := get in
  ret (match find (fun r => bool_decide (admin_message_id r = adminMsgId))
                  (messages w) with
       | Some r => Some (user_id r, guest_message_id r)
       | None => None
       end).

Definition set_verified (r : UserRow) : UserRow :=
  {| username := username r; first_name := first_name r;
     is_verified := 1; language := language r;
     is_blocked := is_blocked r; blocked_at := blocked_at r;
     created_at := created_at r |}.

Definition set_language (code : jsstring) (r : UserRow) : UserRow :=
  {| username := username r; first_name := first_name r;
     is_verified := is_verified r; language := Some code;
     is_blocked := is_blocked r; blocked_at := blocked_at r;
     created_at := created_at r |}.

(** Reads of [dbUser.is_blocked], [dbUser.is_verified], [dbUser.language]
    on the value [upsertUser] returned. *)
Definition dbUser_is_blocked (u : Upserted) : bool :=
  match u with IsNew => false | Existing r => negb (is_blocked r =? 0) end.

Definition dbUser_is_verified (u : Upserted) : bool :=
  match u with IsNew => false | Existing r => negb (is_verified r =? 0) end.

Definition dbUser_language (u : Upserted) : option jsstring :=
  match u with IsNew => None | Existing r => language r end.

(** ** Business logic *)

Definition HTML : option jsstring := Some (u16 "HTML").

(** Buttons are laid out in rows of two. *)
Fixpoint rows_of_two (buttons : list Button) : list (list Button) :=
  match buttons with
  | [] => []
  | [b] => [[b]]
  | b1 :: b2 :: rest => [b1; b2] :: rows_of_two rest
  end.

Definition language_prompt : jsstring :=
  u16 "Please select your language / "
  ++ [0x8BF7%N; 0x9009%N; 0x62E9%N; 0x8BED%N; 0x8A00%N] ++ u16 ":".

Definition sendLanguageSelection (chatId : Z) (env : Env) : M unit :=
  let buttons :=
    map (fun '(code, name) =>
           {| btn_text := name; callback_data := u16 "lang_" ++ code |})
        SUPPORTED_LANGS in
  let keyboard := rows_of_two buttons in
  await! callTelegram (sendMessage chatId language_prompt None
                         (Some keyboard) None) env in
  ret tt.

Definition human_button : Button :=
  {| btn_text := CHECK_MARK ++ u16 " I am Human";
     callback_data := u16 "verify_human" |}.

Definition verify_button : Button :=
  {| btn_text := CHECK_MARK ++ u16 " Verify";
     callback_data := u16 "verify_human" |}.

Definition start_prompt : jsstring :=
  u16 "Please verify you are human by clicking the button below.".

Definition welcome_text : jsstring :=
  u16 "Welcome! You can send me messages and I will forward them to the admin.".

(** The fault raised when a value that has to be there is [null] or
    [undefined]. *)
Definition TypeError : jsstring := u16 "TypeError".

Definition handleStart (message : Message) (env : Env) : M unit :=
  let user := from message in
  await dbUser := upsertUser user in
  await userData := getUser (id user) in
  match userData with
  | None => throw TypeError
  | Some userData =>
      if is_verified userData =? 0 then
        await! callTelegram (sendMessage (id user) start_prompt None
                               (Some [[human_button]]) None) env in
        ret tt
      else if negb (truthy_str (language userData)) then
        sendLanguageSelection (id user) env
      else
        await! callTelegram (sendMessage (id user) welcome_text None None None) env in
        ret tt
  end.

Definition verified_text : jsstring :=
  CHECK_MARK ++ u16 " Verified successfully. Now please select your language.".

Definition language_set_text (langCode : jsstring) : jsstring :=
  CHECK_MARK ++ u16 " Language set to " ++ display_name langCode
  ++ u16 ". You can now send messages.".

Definition handleCallback (callback : Callback) (env : Env) : M unit :=
  let data := cb_data callback in
  let user := cb_from callback in
  if bool_decide (data = u16 "verify_human") then
    await! modify (set_users (alter set_verified (id user))) in
    await! callTelegram (answerCallbackQuery (cb_id callback) (u16 "Verified!")) env in
    await! callTelegram (editMessageText (id user) (cb_message_id callback)
                           verified_text) env in
    sendLanguageSelection (id user) env
  else if startsWith data (u16 "lang_") then
    match split UNDERSCORE data !! 1%nat with
    | None => throw TypeError   (* no second segment: never the case here *)
    | Some langCode =>
        await! modify (set_users (alter (set_language langCode) (id user))) in
        await! callTelegram (answerCallbackQuery (cb_id callback)
                               (u16 "Language set to " ++ langCode)) env in
        await! callTelegram (editMessageText (id user) (cb_message_id callback)
                               (language_set_text langCode)) env in
        ret tt
    end
  else ret tt.

Definition reply_sent_text : jsstring := CHECK_MARK ++ u16 " Reply sent.".

Definition failed_text (e : jsstring) : jsstring :=
  CROSS_MARK ++ u16 " Failed to send: " ++ e.

Definition not_found_text : jsstring :=
  WARNING_SIGN
  ++ u16 " Could not find original sender for this message (maybe too old).".

Definition verify_first_text : jsstring :=
  u16 "Please verify you are human first.".

(** The correlation header put in front of every relayed message. *)
Definition header_of (user : TgUser) (lang : jsstring) : jsstring :=
  ENVELOPE ++ u16 " <b>New Message</b>" ++ [LF]
  ++ u16 "From: <a href=" ++ [QUOTE] ++ u16 "tg://user?id=" ++ Z_to_js (id user)
  ++ [QUOTE] ++ u16 ">" ++ from_first_name user ++ u16 "</a> ("
  ++ Z_to_js (id user) ++ u16 ")" ++ [LF]
  ++ u16 "Lang: " ++ lang.

Definition translation_block (translated : jsstring) : jsstring :=
  [LF; LF] ++ u16 "<b>Translation:</b>" ++ [LF] ++ translated.

Definition isMedia (message : Message) : bool :=
  photo message || video message || document message
  || voice message || audio message || animation message.

(** The caption given to a relayed media message. *)
Definition newCaption (header : jsstring) (caption : option jsstring) : jsstring :=
  let c := header ++ [LF; LF] ++ str_or caption [] in
  if (1024 <? length c)%nat then substring0 1021 c ++ u16 "..." else c.

(** [handlePrivateMessage] is embedded in three parts: the block run when
    the admin wrote (source comment "1. If Admin sent a message"), the block
    that forwards a guest message (source comment "Forward to Admin"), and
    the function itself, which holds the gates between them. *)

(** Block 1: the admin sent a message. *)
Definition adminReply (message : Message) (env : Env) : M unit :=
  let adminId := ADMIN_USER_ID env in
  match reply_to_message message with
  | Some replied =>
      await original := getOriginalSender replied in
      match original with
      | Some (original_user_id, _) =>
          try_catch
            (await! callTelegram (copyMessage original_user_id
                                    (chat_id message) (message_id message)
                                    None None) env in
             await! callTelegram (sendMessage adminId reply_sent_text None None
                                    (Some (message_id message))) env in
             ret tt)
            (fun e =>
               await! callTelegram (sendMessage adminId (failed_text e) None None
                                      (Some (message_id message))) env in
               ret tt)
      | None =>
          await! callTelegram (sendMessage adminId not_found_text None None
                                 (Some (message_id message))) env in
          ret tt
      end
  | None => ret tt
  end.

(** The mapping row written for a relayed message. *)
Definition mapping (k : Z) (message : Message) (t : Z) : MessageRow :=
  {| admin_message_id := k; user_id := id (from message);
     guest_message_id := message_id message; msg_created_at := t |}.

(** Block 2, after the gates: forward to the admin.  [lang] is the
    (truthy) value of [dbUser.language]. *)
Definition forwardToAdmin (message : Message) (env : Env) (lang : jsstring)
  : M unit :=
  let user := from message in
  let adminId := ADMIN_USER_ID env in
  let header := header_of user lang in
  await sentMsg :=
    match text message with
    | Some (t :: ext) =>
        (* text message *)
        let originalText := t :: ext in
        let finalText := header ++ [LF; LF] ++ originalText in
        await finalText :=
          (if bool_decide (lang = u16 "zh") then ret finalText
           else
             await translated := translateText originalText (u16 "Chinese") env in
             ret (finalText ++ translation_block translated)) in
        await res := callTelegram (sendMessage adminId finalText HTML
                                     None None) env in
        ret (result res)
    | _ =>
        if isMedia message then
          (* media message *)
          await res := callTelegram (copyMessage adminId (id user)
                                       (message_id message)
                                       (Some (newCaption header (caption message)))
                                       HTML) env in
          ret (result res)
        else
          (* sticker, dice, ...: header first, then the copy *)
          await! callTelegram (sendMessage adminId header HTML None None) env in
          await res := callTelegram (copyMessage adminId (id user)
                                       (message_id message) None None) env in
          ret (result res)
    end in
  match sentMsg with
  | Some sent_message_id =>
      saveMessageMapping sent_message_id (id user) (message_id message)
  | None => ret tt
  end.

Definition handlePrivateMessage (message : Message) (env : Env) : M unit :=
  let user := from message in
  let adminId := ADMIN_USER_ID env in
  if bool_decide (id user = adminId) then adminReply message env
  else
    await dbUser := upsertUser user in
    if dbUser_is_blocked dbUser then ret tt
    else if negb (dbUser_is_verified dbUser) then
      await! callTelegram (sendMessage (id user) verify_first_text None
                             (Some [[verify_button]]) None) env in
      ret tt
    else
      match dbUser_language dbUser with
      | Some (c :: l) => forwardToAdmin message env (c :: l)
      | _ => sendLanguageSelection (id user) env
      end.

(** ** Routes *)

(** [POST /webhook]: the secret check, then the dispatch, whose exceptions
    are logged and dropped.  The value is the body and status sent back. *)
Definition webhook (env : Env) (secret : option jsstring) (update : Update)
  : World -> (jsstring * Z) * World :=
  fun w =>
    if truthy_str (TELEGRAM_WEBHOOK_SECRET env)
       && negb (bool_decide (secret = TELEGRAM_WEBHOOK_SECRET env))
    then ((u16 "Unauthorized", 403), w)
    else
      let handler :=
        match update with
        | UMessage m =>
            if truthy_str (text m) && startsWith (default [] (text m)) (u16 "/start")
            then handleStart m env
            else handlePrivateMessage m env
        | UCallback c => handleCallback c env
        | UOther => ret tt
        end in
      ((u16 "OK", 200), snd (try_catch handler (fun _ => ret tt) w)).

(** ** Sequences of events *)

(** An inbound request: the bindings in force, the secret header, the update. *)
Definition Event : Type := Env * option jsstring * Update.

Definition deliver (w : World) (ev : Event) : World :=
  let '(env, secret, update) := ev in snd (webhook env secret update w).

Definition run_events (events : list Event) (w : World) : World :=
  fold_left deliver events w.

(** The same kind of callback delivered several times; as in [webhook], an
    exception ends the unit of work and the world stays as it was left. *)
Definition replay (env : Env) (callbacks : list Callback) (w : World) : World :=
  fold_left (fun w c => snd (handleCallback c env w)) callbacks w.

(** The stored mappings that carry a given correlation key. *)
Definition keyed (k : Z) (rows : list MessageRow) : list MessageRow :=
  filter (fun r => admin_message_id r = k) rows.

(** The code carried by a language callback [lang_<code>], as
    [sendLanguageSelection] builds it. *)
Definition callback_code (data : jsstring) : jsstring := drop 5 data.

(** ** Vocabulary of the properties *)

(** Two worlds that differ in the users table at most. *)
Definition same_outside (w1 w : World) : Prop :=
  messages w1 = messages w /\ requests w1 = requests w
  /\ translations w1 = translations w /\ net w1 = net w /\ now w1 = now w.

(** The two requests that deliver a guest message to the admin: the
    formatted text, or the copy of the guest's message. *)
Definition admin_delivery (env : Env) (message : Message) (r : Request) : Prop :=
  (exists body, r = sendMessage (ADMIN_USER_ID env) body HTML None None)
  \/ (exists cap pm, r = copyMessage (ADMIN_USER_ID env) (id (from message))
                          (message_id message) cap pm).

(** Requests to the Bot API, as opposed to the translation service. *)
Definition bot_api (r : Request) : Prop :=
  match r with chatCompletions _ _ _ => False | _ => True end.

(** The keyboard [sendLanguageSelection] builds: one button per supported
    language, in rows of two. *)
Definition language_keyboard : list (list Button) :=
  rows_of_two
    (map (fun '(code, name) =>
            {| btn_text := name; callback_data := u16 "lang_" ++ code |})
         SUPPORTED_LANGS).

(** The prompt the start command answers with, by onboarding state. *)
Definition start_reply (row : option UserRow)
  : jsstring * option (list (list Button)) :=
  match row with
  | None => (start_prompt, Some [[human_button]])
  | Some r =>
      if is_verified r =? 0 then (start_prompt, Some [[human_button]])
      else if truthy_str (language r) then (welcome_text, None)
      else (language_prompt, Some language_keyboard)
  end.

(** What keeps a user's row recognisable across events: the block flag and
    its date, the creation date, and verification once obtained. *)
Definition row_kept (r r' : UserRow) : Prop :=
  is_blocked r' = is_blocked r /\ blocked_at r' = blocked_at r
  /\ created_at r' = created_at r
  /\ (is_verified r <> 0 -> is_verified r' <> 0).

(** The webhook lets the request through: no secret is configured, or the
    header carries it. *)
Definition authorized (env : Env) (secret : option jsstring) : Prop :=
  truthy_str (TELEGRAM_WEBHOOK_SECRET env) = false
  \/ secret = TELEGRAM_WEBHOOK_SECRET env.

(** Every row of [m] is still in [m'], kept in the sense above. *)
Definition users_kept (m m' : gmap Z UserRow) : Prop :=
  forall uid row, m !! uid = Some row ->
    exists row', m' !! uid = Some row' /\ row_kept row row'.

(** ** Sample data *)

Module Sample.

Definition env : Env :=
  {| TELEGRAM_BOT_TOKEN := u16 "123:abc"; TELEGRAM_WEBHOOK_SECRET := None;
     ADMIN_USER_ID := 1; SILICONFLOW_API_KEY := None |}.

Definition env_translating : Env :=
  {| TELEGRAM_BOT_TOKEN := u16 "123:abc"; TELEGRAM_WEBHOOK_SECRET := None;
     ADMIN_USER_ID := 1; SILICONFLOW_API_KEY := Some (u16 "sk-1") |}.

Definition admin : TgUser :=
  {| id := 1; from_username := Some (u16 "boss"); from_first_name := u16 "Boss" |}.

Definition bo : TgUser :=
  {| id := 7; from_username := Some (u16 "bo"); from_first_name := u16 "Bo" |}.

Definition ann : TgUser :=
  {| id := 8; from_username := None; from_first_name := u16 "Ann" |}.

Definition cy : TgUser :=
  {| id := 9; from_username := Some (u16 "cy"); from_first_name := u16 "Cy" |}.

Definition row_of (u : TgUser) (verified : Z) (lang : option jsstring)
    (blocked : Z) : UserRow :=
  {| username := from_username u; first_name := from_first_name u;
     is_verified := verified; language := lang; is_blocked := blocked;
     blocked_at := None; created_at := 1699999999000 |}.

(** A message with no content fields set: what a sticker looks like to
    the worker. *)
Definition sticker (u : TgUser) (mid : Z) : Message :=
  {| from := u; chat_id := id u; message_id := mid; text := None;
     photo := false; video := false; document := false; voice := false;
     audio := false; animation := false; caption := None;
     reply_to_message := None |}.

Definition text_message (u : TgUser) (mid : Z) (t : jsstring) : Message :=
  {| from := u; chat_id := id u; message_id := mid; text := Some t;
     photo := false; video := false; document := false; voice := false;
     audio := false; animation := false; caption := None;
     reply_to_message := None |}.

Definition photo_message (u : TgUser) (mid : Z) (c : option jsstring) : Message :=
  {| from := u; chat_id := id u; message_id := mid; text := None;
     photo := true; video := false; document := false; voice := false;
     audio := false; animation := false; caption := c;
     reply_to_message := None |}.

Definition reply (u : TgUser) (mid replied : Z) (t : jsstring) : Message :=
  {| from := u; chat_id := id u; message_id := mid; text := Some t;
     photo := false; video := false; document := false; voice := false;
     audio := false; animation := false; caption := None;
     reply_to_message := Some replied |}.

Definition button_press (u : TgUser) (data : jsstring) : Callback :=
  {| cb_id := u16 "cbq1"; cb_from := u; cb_data := data; cb_message_id := 3 |}.

(** Answers of the network. *)
Definition delivered (k : Z) : Outcome :=
  Responds {| result := Some k; content := None |}.

(** The Bot API refused the call: a body with [ok: false] and no [result]. *)
Definition refused : Outcome :=
  Responds {| result := None; content := None |}.

(** A scripted network; past the script every request is refused. *)
Definition answers (script : list Outcome) (n : nat) : Outcome :=
  nth n script refused.

Definition world (us : gmap Z UserRow) (rows : list MessageRow)
    (script : list Outcome) : World :=
  {| users := us; messages := rows; requests := []; translations := [];
     net := answers script; now := 1700000000000 |}.


(** Bo has not been verified yet. *)
Definition w_unverified : World :=
  world {[ 7 := row_of bo 0 None 0 ]} [] [].

(** Bo has been verified and has not chosen a language. *)
Definition w_choosing : World :=
  world {[ 7 := row_of bo 1 None 0 ]} [] [delivered 20; delivered 3].

(** Bo is blocked (and has not been verified). *)
Definition w_blocked : World :=
  world {[ 7 := row_of bo 0 None 1 ]} [] [delivered 21; delivered 3; delivered 22].

(** Bo (English) and Ann (Chinese) have completed onboarding. *)
Definition w_ready (script : list Outcome) : World :=
  world {[ 7 := row_of bo 1 (Some (u16 "en")) 0;
           8 := row_of ann 1 (Some (u16 "zh")) 0 ]} [] script.

Definition hello : Message := text_message bo 9 (u16 "Hello").
Definition nihao : Message := text_message ann 4 (u16 "ni hao").
Definition start : Message := text_message bo 5 (u16 "/start").

(** A photo whose caption is 2000 units long. *)
Definition long_photo : Message :=
  photo_message bo 9 (Some (repeat 97%N 2000)).

(** The bindings after the bot has been replaced by a new one (another
    token) on the same database; a new bot numbers its messages afresh. *)
Definition env_new_bot : Env :=
  {| TELEGRAM_BOT_TOKEN := u16 "456:def"; TELEGRAM_WEBHOOK_SECRET := None;
     ADMIN_USER_ID := 1; SILICONFLOW_API_KEY := None |}.

Definition hola : Message := text_message cy 4 (u16 "Hola").

(** Bo's message is relayed by the first bot and Cy's by the new one, and
    both deliveries are answered with the same message id. *)
Definition w_same_id_twice : World :=
  run_events [ (env, None, UMessage hello); (env_new_bot, None, UMessage hola) ]
    (world {[ 7 := row_of bo 1 (Some (u16 "en")) 0;
              9 := row_of cy 1 (Some (u16 "zh")) 0 ]} []
       [delivered 55; delivered 55]).

(** The admin replies to message 55, which relays Bo's message 9; the Bot
    API refuses the copy (the guest blocked the bot). *)
Definition w_reply_refused : World :=
  world {[ 7 := row_of bo 1 (Some (u16 "en")) 0 ]}
    [ {| admin_message_id := 55; user_id := 7; guest_message_id := 9;
         msg_created_at := 1699999999500 |} ]
    [refused; delivered 31].

Definition admin_reply : Message := reply admin 30 55 (u16 "Hi Bo").


End Sample.

(** * Properties *)

(** ** Proof automation *)

Ltac run :=
  unfold bind, ret, throw, modify, get, try_catch, callTelegram, fetch,
    set_users, set_messages, push_request, push_translation in *;
  cbn [users messages requests translations net now fst snd] in *.

Ltac atomic x :=
  lazymatch x with
  | context [match _ with _ => _ end] => fail
  | context [if _ then _ else _] => fail
  | _ => idtac
  end.

(** Runs a handler symbolically, splitting on every test it makes. *)
Ltac crush :=
  repeat (run; try match goal with
    | |- context [match ?x with _ => _ end] => atomic x; destruct x eqn:?
    | |- context [if ?x then _ else _] => atomic x; destruct x eqn:?
    end).

(** ** Strings *)

Lemma split_no_sep (sep : N) (s : jsstring) :
  sep ∉ s -> split sep s = [s].
Proof.
  induction s as [|c s IH]; intros Hs; [reflexivity|].
  apply not_elem_of_cons in Hs as [Hc Hs].
  simpl. rewrite decide_False by congruence. now rewrite IH.
Qed.

Lemma split_app_sep (sep : N) (s rest : jsstring) :
  sep ∉ s -> split sep (s ++ sep :: rest) = s :: split sep rest.
Proof.
  induction s as [|c s IH]; intros Hs; simpl.
  - now rewrite decide_True.
  - apply not_elem_of_cons in Hs as [Hc Hs].
    rewrite decide_False by congruence. now rewrite IH.
Qed.

Lemma lang_has_no_underscore : UNDERSCORE ∉ u16 "lang".
Proof.
  vm_compute. intros H.
  repeat (apply elem_of_cons in H as [H|H]; [discriminate|]).
  now apply elem_of_nil in H.
Qed.

(** [data.split('_')[1]] for [lang_<x>] and for [lang_<x>_<y>]. *)
Lemma split_lang_code (x : jsstring) :
  UNDERSCORE ∉ x -> split UNDERSCORE (u16 "lang_" ++ x) !! 1%nat = Some x.
Proof.
  intros Hx. change (u16 "lang_" ++ x) with (u16 "lang" ++ UNDERSCORE :: x).
  rewrite split_app_sep by apply lang_has_no_underscore.
  simpl. now rewrite split_no_sep.
Qed.

Lemma split_lang_code_rest (x y : jsstring) :
  UNDERSCORE ∉ x ->
  split UNDERSCORE (u16 "lang_" ++ x ++ UNDERSCORE :: y) !! 1%nat = Some x.
Proof.
  intros Hx.
  change (u16 "lang_" ++ x ++ UNDERSCORE :: y)
    with (u16 "lang" ++ UNDERSCORE :: (x ++ UNDERSCORE :: y)).
  rewrite split_app_sep by apply lang_has_no_underscore.
  simpl. now rewrite split_app_sep.
Qed.

Lemma split_nonempty (sep : N) (s : jsstring) : split sep s <> [].
Proof.
  destruct s as [|c s]; simpl; [discriminate|].
  destruct (decide (c = sep)); [discriminate|].
  destruct (split sep s); discriminate.
Qed.

(** An action string that starts with [lang_] always has a second
    segment, so [split('_')[1]] is defined. *)
Lemma lang_callback_has_code (data : jsstring) :
  startsWith data (u16 "lang_") = true ->
  is_Some (split UNDERSCORE data !! 1%nat).
Proof.
  unfold startsWith. intros H. apply bool_decide_eq_true in H.
  rewrite <- (take_drop 5 data).
  change (length (u16 "lang_")) with 5%nat in H. rewrite H.
  change (u16 "lang_" ++ drop 5 data)
    with (u16 "lang" ++ UNDERSCORE :: drop 5 data).
  rewrite split_app_sep by apply lang_has_no_underscore.
  pose proof (split_nonempty UNDERSCORE (drop 5 data)) as Hne.
  destruct (split UNDERSCORE (drop 5 data)) as [|seg rest]; [contradiction|].
  now exists seg.
Qed.

Lemma startsWith_app (p s : jsstring) : startsWith (p ++ s) p = true.
Proof.
  unfold startsWith. apply bool_decide_eq_true.
  now rewrite take_app_length.
Qed.

Lemma not_verify_human (rest : jsstring) :
  bool_decide (u16 "lang_" ++ rest = u16 "verify_human") = false.
Proof. apply bool_decide_eq_false. vm_compute. discriminate. Qed.

(** ** MessageCorrelator: [saveMessageMapping] and [getOriginalSender] *)

Lemma keyed_app (k : Z) (l1 l2 : list MessageRow) :
  keyed k (l1 ++ l2) = keyed k l1 ++ keyed k l2.
Proof. apply filter_app. Qed.

Lemma find_key_app (k : Z) (l1 l2 : list MessageRow) :
  find (fun r => bool_decide (admin_message_id r = k)) (l1 ++ l2)
  = match find (fun r => bool_decide (admin_message_id r = k)) l1 with
    | Some r => Some r
    | None => find (fun r => bool_decide (admin_message_id r = k)) l2
    end.
Proof.
  induction l1 as [|r l1 IH]; simpl; [reflexivity|].
  now destruct (bool_decide _).
Qed.

Lemma find_key_fresh (k : Z) (rows : list MessageRow) :
  (forall r, r ∈ rows -> admin_message_id r <> k) ->
  find (fun r => bool_decide (admin_message_id r = k)) rows = None.
Proof.
  induction rows as [|r rows IH]; intros Hk; simpl; [reflexivity|].
  rewrite bool_decide_eq_false_2 by (apply Hk; left).
  apply IH. intros r' Hr'. apply Hk. now right.
Qed.

(** Resolving a key no stored mapping carries finds nothing. *)
Lemma resolve_unrecorded (k : Z) (w : World) :
  (forall r, r ∈ messages w -> admin_message_id r <> k) ->
  getOriginalSender k w = (Ok None, w).
Proof.
  intros Hk. unfold getOriginalSender. run. now rewrite find_key_fresh.
Qed.

(** Resolution depends on the table only, and the first mapping stored
    under a key is the one found whatever is appended later. *)
Lemma resolve_first_wins (k : Z) (w : World) (r : MessageRow)
    (before after : list MessageRow) :
  messages w = before ++ r :: after ->
  (forall r', r' ∈ before -> admin_message_id r' <> k) ->
  admin_message_id r = k ->
  fst (getOriginalSender k w) = Ok (Some (user_id r, guest_message_id r)).
Proof.
  intros Hm Hk Hr. unfold getOriginalSender. run.
  rewrite Hm, find_key_app, find_key_fresh by exact Hk.
  simpl. now rewrite bool_decide_eq_true_2.
Qed.

(** C5, as the code has it: [saveMessageMapping] never fails; it appends a
    row whether or not the key is already stored, so the number of mappings
    under that key grows by one each time. *)
Theorem saveMessageMapping_always_appends (k u m : Z) (w : World) :
  saveMessageMapping k u m w
  = (Ok tt,
     set_messages (fun rows =>
       rows ++ [ {| admin_message_id := k; user_id := u;
                    guest_message_id := m; msg_created_at := now w |} ]) w)
  /\ length (keyed k (messages (snd (saveMessageMapping k u m w))))
     = S (length (keyed k (messages w))).
Proof.
  split; [reflexivity|].
  unfold saveMessageMapping. run.
  rewrite keyed_app, length_app. unfold keyed at 2.
  rewrite filter_cons_True by reflexivity. simpl. lia.
Qed.

(** ** Language selection *)

Lemma handleCallback_lang_users (callback : Callback) (env : Env) (w : World)
    (rest code : jsstring) :
  cb_data callback = u16 "lang_" ++ rest ->
  split UNDERSCORE (cb_data callback) !! 1%nat = Some code ->
  users (snd (handleCallback callback env w))
  = alter (set_language code) (id (cb_from callback)) (users w).
Proof.
  intros Hd Hc. unfold handleCallback. rewrite Hc, Hd.
  rewrite not_verify_human, startsWith_app.
  crush; reflexivity.
Qed.

Lemma handleCallback_lang_requests (callback : Callback) (env : Env) (w : World)
    (rest code : jsstring) :
  cb_data callback = u16 "lang_" ++ rest ->
  split UNDERSCORE (cb_data callback) !! 1%nat = Some code ->
  requests (snd (handleCallback callback env w))
  = requests w
    ++ answerCallbackQuery (cb_id callback) (u16 "Language set to " ++ code)
    :: match net w (length (requests w)) with
       | Responds _ =>
           [ editMessageText (id (cb_from callback)) (cb_message_id callback)
               (language_set_text code) ]
       | Rejects _ => []
       end.
Proof.
  intros Hd Hc. unfold handleCallback. rewrite Hc, Hd.
  rewrite not_verify_human, startsWith_app.
  crush; now rewrite <- ?app_assoc.
Qed.

(** Outside [Object.prototype], the name shown is the table's entry when
    there is one and the code itself otherwise. *)
Lemma display_name_plain (code : jsstring) :
  code ∉ OBJECT_PROTOTYPE ->
  display_name code = default code (assoc code SUPPORTED_LANGS).
Proof.
  intros Hobj. unfold display_name, SUPPORTED_LANGS_get.
  rewrite (bool_decide_eq_false_2 _ Hobj).
  unfold SUPPORTED_LANGS, assoc.
  repeat (case_decide; [reflexivity|]). reflexivity.
Qed.

(** C10.  The stored code is the second underscore-separated segment of the
    action string: for [lang_X_Y], where [X] holds no underscore, the user's
    language becomes [X], which is not the code [X_Y] the action carried. *)
Theorem lang_callback_stores_second_segment
    (callback : Callback) (env : Env) (w : World) (x y : jsstring) :
  UNDERSCORE ∉ x ->
  cb_data callback = u16 "lang_" ++ x ++ UNDERSCORE :: y ->
  let w' := snd (handleCallback callback env w) in
  users w' = alter (set_language x) (id (cb_from callback)) (users w)
  /\ (forall row, users w !! id (cb_from callback) = Some row ->
        language <$> users w' !! id (cb_from callback) = Some (Some x))
  /\ callback_code (cb_data callback) = x ++ UNDERSCORE :: y
  /\ x <> callback_code (cb_data callback).
Proof.
  intros Hx Hd w'.
  assert (Hu : users w' = alter (set_language x) (id (cb_from callback)) (users w)).
  { apply (handleCallback_lang_users _ _ _ (x ++ UNDERSCORE :: y)); [exact Hd|].
    rewrite Hd. now apply split_lang_code_rest. }
  assert (Hc : callback_code (cb_data callback) = x ++ UNDERSCORE :: y)
    by now rewrite Hd.
  repeat split; [exact Hu| |exact Hc|].
  - intros row Hrow. rewrite Hu, lookup_alter_eq, Hrow. reflexivity.
  - rewrite Hc. intros Heq. apply (f_equal length) in Heq.
    rewrite length_app in Heq. simpl in Heq. lia.
Qed.

Lemma lang_callback_stores_second_segment_witness :
  language
    <$> users (snd (handleCallback
                      (Sample.button_press Sample.bo (u16 "lang_zh_TW"))
                      Sample.env Sample.w_choosing)) !! 7
  = Some (Some (u16 "zh")).
Proof.
  refine (proj1 (proj2 (lang_callback_stores_second_segment
            (Sample.button_press Sample.bo (u16 "lang_zh_TW")) Sample.env
            Sample.w_choosing (u16 "zh") (u16 "TW") _ _))
            (Sample.row_of Sample.bo 1 None 0) _).
  - vm_compute. intros H.
    repeat (apply elem_of_cons in H as [H|H]; [discriminate|]).
    now apply elem_of_nil in H.
  - reflexivity.
  - reflexivity.
Defined.

(** C9, as the code has it.  For a language callback [lang_<code>] whose
    code holds no underscore, the code is stored verbatim.  The callback is
    answered with the raw code, and unless that call throws the message is
    edited to name the language: with the display name when the code is in
    the supported table, with the code itself when it is in neither the
    table nor [Object.prototype]. *)
Theorem select_language_stores_and_names
    (callback : Callback) (env : Env) (w : World) (code : jsstring) :
  cb_data callback = u16 "lang_" ++ code ->
  UNDERSCORE ∉ code ->
  let w' := snd (handleCallback callback env w) in
  let uid := id (cb_from callback) in
  users w' = alter (set_language code) uid (users w)
  /\ (forall row, users w !! uid = Some row ->
        language <$> users w' !! uid = Some (Some (callback_code (cb_data callback))))
  /\ requests w'
     = requests w
       ++ answerCallbackQuery (cb_id callback) (u16 "Language set to " ++ code)
       :: match net w (length (requests w)) with
          | Responds _ =>
              [ editMessageText uid (cb_message_id callback)
                  (language_set_text code) ]
          | Rejects _ => []
          end
  /\ (code ∉ OBJECT_PROTOTYPE ->
      language_set_text code
      = CHECK_MARK ++ u16 " Language set to "
        ++ match assoc code SUPPORTED_LANGS with
           | Some name => name
           | None => code
           end
        ++ u16 ". You can now send messages.").
Proof.
  intros Hd Hx w' uid.
  pose proof (split_lang_code code Hx) as Hs. rewrite <- Hd in Hs.
  assert (Hu : users w' = alter (set_language code) uid (users w))
    by exact (handleCallback_lang_users _ _ _ _ _ Hd Hs).
  repeat split.
  - exact Hu.
  - intros row Hrow. rewrite Hu, lookup_alter_eq, Hrow, Hd. reflexivity.
  - exact (handleCallback_lang_requests _ _ _ _ _ Hd Hs).
  - intros Hobj. unfold language_set_text.
    rewrite (display_name_plain _ Hobj).
    now destruct (assoc code SUPPORTED_LANGS).
Qed.

Lemma select_language_stores_and_names_witness :
  language
    <$> users (snd (handleCallback (Sample.button_press Sample.bo (u16 "lang_en"))
                      Sample.env Sample.w_choosing)) !! 7
  = Some (Some (u16 "en"))
  /\ requests (snd (handleCallback (Sample.button_press Sample.bo (u16 "lang_en"))
                      Sample.env Sample.w_choosing))
     = [ answerCallbackQuery (u16 "cbq1") (u16 "Language set to en");
         editMessageText 7 3
           (CHECK_MARK ++ u16 " Language set to English. You can now send messages.") ].
Proof.
  assert (Hx : UNDERSCORE ∉ u16 "en").
  { vm_compute. intros H.
    repeat (apply elem_of_cons in H as [H|H]; [discriminate|]).
    now apply elem_of_nil in H. }
  destruct (select_language_stores_and_names
              (Sample.button_press Sample.bo (u16 "lang_en")) Sample.env
              Sample.w_choosing (u16 "en") eq_refl Hx) as (_ & Hstored & Hreq & _).
  split.
  - exact (Hstored (Sample.row_of Sample.bo 1 None 0) eq_refl).
  - exact Hreq.
Defined.

(** C9 as stated fails twice: [lang_zh_TW] carries the code [zh_TW] and
    stores [zh]; and [lang_constructor], whose code is not in the supported
    table, is acknowledged with the text of [Object.prototype.constructor]
    instead of the raw code. *)
Lemma select_language_not_verbatim_nor_raw :
  (callback_code (u16 "lang_zh_TW") = u16 "zh_TW"
   /\ language
        <$> users (snd (handleCallback
                          (Sample.button_press Sample.bo (u16 "lang_zh_TW"))
                          Sample.env Sample.w_choosing)) !! 7
      = Some (Some (u16 "zh"))
   /\ u16 "zh" <> u16 "zh_TW")
  /\ (assoc (u16 "constructor") SUPPORTED_LANGS = None
      /\ requests (snd (handleCallback
                          (Sample.button_press Sample.bo (u16 "lang_constructor"))
                          Sample.env Sample.w_choosing))
         = [ answerCallbackQuery (u16 "cbq1") (u16 "Language set to constructor");
             editMessageText 7 3
               (CHECK_MARK
                ++ u16 " Language set to function Object() { [native code] }. You can now send messages.") ]
      /\ CHECK_MARK
           ++ u16 " Language set to function Object() { [native code] }. You can now send messages."
         <> CHECK_MARK
            ++ u16 " Language set to constructor. You can now send messages.").
Proof.
  split; [|split; [|split]]; try (vm_compute; reflexivity).
  - repeat split; try (vm_compute; reflexivity). vm_compute. discriminate.
  - vm_compute. discriminate.
Qed.

(** ** Verification *)

Lemma set_verified_idempotent (r : UserRow) :
  set_verified (set_verified r) = set_verified r.
Proof. reflexivity. Qed.

Lemma set_verified_fixed (r : UserRow) :
  is_verified r = 1 -> set_verified r = r.
Proof. destruct r; simpl; intros ->; reflexivity. Qed.

Lemma handleCallback_verify_users (callback : Callback) (env : Env) (w : World) :
  cb_data callback = u16 "verify_human" ->
  users (snd (handleCallback callback env w))
  = alter set_verified (id (cb_from callback)) (users w).
Proof.
  intros Hd. unfold handleCallback, sendLanguageSelection. rewrite Hd.
  rewrite bool_decide_eq_true_2 by reflexivity.
  crush; reflexivity.
Qed.

Lemma alter_set_verified_twice (uid : Z) (us : gmap Z UserRow) :
  alter set_verified uid (alter set_verified uid us) = alter set_verified uid us.
Proof.
  apply map_eq. intros i. destruct (decide (i = uid)) as [->|Hne].
  - rewrite !lookup_alter_eq. now destruct (us !! uid).
  - now rewrite !lookup_alter_ne by congruence.
Qed.

Lemma replay_verify_users (env : Env) (uid : Z) (callbacks : list Callback)
    (w : World) :
  Forall (fun c => cb_data c = u16 "verify_human" /\ id (cb_from c) = uid)
         callbacks ->
  users (replay env callbacks w) = users w
  \/ users (replay env callbacks w) = alter set_verified uid (users w).
Proof.
  intros Hall. revert w.
  induction Hall as [|c cs [Hd Hu] _ IH]; intros w; [now left|].
  right. unfold replay in *. simpl.
  pose proof (handleCallback_verify_users c env w Hd) as Hstep.
  rewrite Hu in Hstep.
  destruct (IH (snd (handleCallback c env w))) as [-> | ->]; rewrite Hstep.
  - reflexivity.
  - apply alter_set_verified_twice.
Qed.

(** C7.  However many times [verify_human] is delivered for a user (at
    least once), the users table is the one a single delivery leaves:
    the user's row has [is_verified = 1] and every other column, the chosen
    language among them, as before; if the row already had [is_verified = 1]
    the table is unchanged. *)
Theorem verify_human_idempotent
    (env : Env) (uid : Z) (c : Callback) (cs : list Callback) (w : World) :
  Forall (fun c => cb_data c = u16 "verify_human" /\ id (cb_from c) = uid)
         (c :: cs) ->
  let w' := replay env (c :: cs) w in
  users w' = users (replay env [c] w)
  /\ users w' = alter set_verified uid (users w)
  /\ (forall row, users w !! uid = Some row ->
        exists row', users w' !! uid = Some row'
          /\ is_verified row' = 1
          /\ language row' = language row
          /\ is_blocked row' = is_blocked row
          /\ (is_verified row = 1 -> users w' = users w)).
Proof.
  intros Hall w'.
  assert (Hone : users (replay env [c] w) = alter set_verified uid (users w)).
  { inversion Hall as [|? ? [Hd Hu] _]; subst.
    unfold replay. simpl. now rewrite handleCallback_verify_users. }
  assert (Hu : users w' = alter set_verified uid (users w)).
  { subst w'. inversion Hall as [|? ? [Hd Hid] Hrest]; subst.
    change (replay env (c :: cs) w)
      with (replay env cs (snd (handleCallback c env w))).
    destruct (replay_verify_users env (id (cb_from c)) cs
                (snd (handleCallback c env w)) Hrest) as [-> | ->];
      rewrite handleCallback_verify_users by exact Hd.
    - reflexivity.
    - apply alter_set_verified_twice. }
  split; [now rewrite Hone|]. split; [exact Hu|].
  intros row Hrow. exists (set_verified row).
  rewrite Hu, lookup_alter_eq, Hrow. repeat split.
  intros Hv. apply map_eq. intros i. destruct (decide (i = uid)) as [->|Hne].
  - rewrite lookup_alter_eq, Hrow. simpl. now rewrite set_verified_fixed.
  - now rewrite lookup_alter_ne by congruence.
Qed.

(** ** The gates of [handlePrivateMessage] *)

Lemma upsertUser_outside (user : TgUser) (w : World) :
  same_outside (snd (upsertUser user w)) w.
Proof. unfold upsertUser, getUser. crush; repeat split. Qed.

Lemma upsertUser_existing (user : TgUser) (w : World) (row : UserRow)
    (name : jsstring) :
  users w !! id user = Some row ->
  from_username user = Some name ->
  fst (upsertUser user w) = Ok (Existing row).
Proof.
  intros Hrow Hname. unfold upsertUser, getUser. run. rewrite Hrow, Hname.
  crush; reflexivity.
Qed.

(** A sender without a username never gets past the upsert: the binding
    faults before anything is stored. *)
Lemma upsertUser_no_username (user : TgUser) (w : World) :
  from_username user = None ->
  upsertUser user w = (Throw D1_TYPE_ERROR, w).
Proof.
  intros Hname. unfold upsertUser, getUser. run. rewrite Hname.
  destruct (users w !! id user); reflexivity.
Qed.

(** Either the handler leaves table [messages] alone, or it is the
    forwarding block run after the upsert. *)
Lemma handlePrivateMessage_cases (message : Message) (env : Env) (w : World) :
  messages (snd (handlePrivateMessage message env w)) = messages w
  \/ exists w1 lang, same_outside w1 w
       /\ handlePrivateMessage message env w = forwardToAdmin message env lang w1.
Proof.
  remember (handlePrivateMessage message env w) as res eqn:Hres.
  unfold handlePrivateMessage in Hres. cbv zeta in Hres.
  destruct (bool_decide _) in Hres.
  { left. subst res. unfold adminReply, getOriginalSender. crush; reflexivity. }
  unfold bind at 1 in Hres.
  pose proof (upsertUser_outside (from message) w) as Hout.
  destruct (upsertUser (from message) w) as [[dbUser|e] w1]; simpl in Hout;
    [|left; subst res; apply Hout].
  destruct (dbUser_is_blocked dbUser); [left; subst res; apply Hout|].
  destruct (dbUser_is_verified dbUser); simpl in Hres.
  2:{ left. subst res. crush; apply Hout. }
  destruct (dbUser_language dbUser) as [[|c l]|].
  - left. subst res. unfold sendLanguageSelection. crush; apply Hout.
  - right. eauto.
  - left. subst res. unfold sendLanguageSelection. crush; apply Hout.
Qed.

(** ** The forwarding block *)

Lemma forward_mapping (message : Message) (env : Env) (lang : jsstring) (w : World) :
  let w' := snd (forwardToAdmin message env lang w) in
  messages w' = messages w
  \/ exists k earlier payload j,
       requests w' = requests w ++ earlier ++ [payload]
       /\ admin_delivery env message payload
       /\ net w (length (requests w) + length earlier)%nat = Responds j
       /\ result j = Some k
       /\ messages w' = messages w ++ [mapping k message (now w)]
       /\ (forall i r, earlier !! i = Some r -> bot_api r ->
             exists j0, net w (length (requests w) + i)%nat = Responds j0).
Proof.
  unfold forwardToAdmin, translateText, saveMessageMapping. cbv zeta.
  crush; try (left; reflexivity).
  all: rewrite ?length_app in *; cbn [length] in *.
  all: right.
  all: first
    [ eexists _, [], _, _; split; [rewrite <- ?app_assoc; cbn [app]; reflexivity|];
      rewrite Nat.add_0_r
    | eexists _, [_], _, _; split; [rewrite <- ?app_assoc; cbn [app]; reflexivity|] ].
  all: cbn [length].
  all: (split; [unfold admin_delivery; eauto|]).
  all: (split; [eassumption|]).
  all: (split; [eassumption|]).
  all: (split; [reflexivity|]).
  all: intros [|i] r Hr Hapi; try discriminate.
  all: rewrite Nat.add_0_r.
  all: injection Hr as <-; try contradiction; eauto.
Qed.

(** C4, as the code has it.  Whenever [handlePrivateMessage] adds to table
    [messages], it adds one row, for this guest message; the last request
    it issued is the delivery of the payload to the admin; that request was
    answered with a result, whose message id is the key of the row; and any
    Bot API call issued before it (the header of an uncaptioned payload)
    returned without throwing.  So nothing is recorded when the payload
    delivery throws or is answered without a result, nor when an earlier
    Bot API call throws. *)
Theorem mapping_only_after_payload_delivery
    (message : Message) (env : Env) (w : World) :
  let w' := snd (handlePrivateMessage message env w) in
  messages w' = messages w
  \/ exists k earlier payload j,
       requests w' = requests w ++ earlier ++ [payload]
       /\ admin_delivery env message payload
       /\ net w (length (requests w) + length earlier)%nat = Responds j
       /\ result j = Some k
       /\ messages w' = messages w ++ [mapping k message (now w)]
       /\ (forall i r, earlier !! i = Some r -> bot_api r ->
             exists j0, net w (length (requests w) + i)%nat = Responds j0).
Proof.
  intros w'. subst w'.
  destruct (handlePrivateMessage_cases message env w)
    as [Hsame | (w1 & lang & (Hm & Hr & _ & Hn & Ht) & ->)]; [now left|].
  destruct (forward_mapping message env lang w1) as [Hsame | Hrec].
  - left. now rewrite Hsame.
  - right. rewrite Hm, Hr, Hn, Ht in Hrec. exact Hrec.
Qed.

(** The text branch: what is asked of the translator and what is sent. *)
Lemma forward_text (message : Message) (env : Env) (lang t : jsstring) (w : World) :
  text message = Some t -> t <> [] ->
  let w' := snd (forwardToAdmin message env lang w) in
  let header := header_of (from message) lang in
  let translated :=
    match SILICONFLOW_API_KEY env, net w (length (requests w)) with
    | Some (_ :: _), Responds data => str_or (content data) t
    | _, _ => t
    end in
  translations w'
  = translations w
    ++ (if bool_decide (lang = u16 "zh") then [] else [(t, u16 "Chinese")])
  /\ requests w'
     = requests w
       ++ (if bool_decide (lang = u16 "zh") then []
           else match SILICONFLOW_API_KEY env with
                | Some (c :: key) =>
                    [chatCompletions (c :: key) (translate_prompt (u16 "Chinese")) t]
                | _ => []
                end)
       ++ [ sendMessage (ADMIN_USER_ID env)
              (header ++ [LF; LF] ++ t
               ++ (if bool_decide (lang = u16 "zh") then []
                   else translation_block translated))
              HTML None None ].
Proof.
  intros Ht Hne. destruct t as [|c t]; [contradiction|].
  unfold forwardToAdmin, translateText, saveMessageMapping. cbv zeta.
  rewrite Ht.
  crush; rewrite <- ?app_assoc, ?app_nil_r; cbn [app]; split; reflexivity.
Qed.

(** The media branch: one copy of the message, under the new caption. *)
Lemma forward_media (message : Message) (env : Env) (lang : jsstring) (w : World) :
  truthy_str (text message) = false -> isMedia message = true ->
  requests (snd (forwardToAdmin message env lang w))
  = requests w
    ++ [ copyMessage (ADMIN_USER_ID env) (id (from message)) (message_id message)
           (Some (newCaption (header_of (from message) lang) (caption message)))
           HTML ].
Proof.
  intros Ht Hmedia.
  unfold forwardToAdmin, saveMessageMapping. cbv zeta. rewrite Hmedia.
  destruct (text message) as [[|c t]|]; try discriminate; crush; reflexivity.
Qed.

(** ** Caption bound *)

Lemma newCaption_spec (header : jsstring) (caption : option jsstring) :
  let c := header ++ [LF; LF] ++ str_or caption [] in
  ((1024 < length c)%nat ->
     newCaption header caption = take 1021 c ++ u16 "..."
     /\ length (newCaption header caption) = 1024%nat
     /\ u16 "..." `suffix_of` newCaption header caption)
  /\ ((length c <= 1024)%nat -> newCaption header caption = c).
Proof.
  intros c. unfold newCaption, substring0. fold c. split; intros Hlen.
  - rewrite (proj2 (Nat.ltb_lt _ _) Hlen). split; [reflexivity|]. split.
    + rewrite length_app, length_take. change (length (u16 "...")) with 3%nat. lia.
    + now exists (take 1021 c).
  - now rewrite (proj2 (Nat.ltb_ge _ _) Hlen).
Qed.

(** ** Relaying for a guest who passed onboarding

    A message is relayed when its sender passes every gate of
    [handlePrivateMessage]: the sender is not the admin, carries a username
    (without one the upsert faults, see [upsertUser_no_username]), has a
    row, is not blocked, is verified and has chosen a language. *)

Section ReadyGuest.

Variables (message : Message) (env : Env) (w : World).
Variables (row : UserRow) (lang name : jsstring).

Hypothesis Hguest : id (from message) <> ADMIN_USER_ID env.
Hypothesis Husername : from_username (from message) = Some name.
Hypothesis Hrow : users w !! id (from message) = Some row.
Hypothesis Hblocked : is_blocked row = 0.
Hypothesis Hverified : is_verified row <> 0.
Hypothesis Hlang : language row = Some lang.
Hypothesis Hlang_set : lang <> [].

(** All gates pass; only the users table may have changed on the way. *)
Lemma ready_gate :
  exists w1, same_outside w1 w
    /\ handlePrivateMessage message env w = forwardToAdmin message env lang w1.
Proof using All.
  pose proof (upsertUser_outside (from message) w) as Hout.
  pose proof (upsertUser_existing (from message) w row name Hrow Husername)
    as Hup.
  unfold handlePrivateMessage. cbv zeta.
  rewrite bool_decide_eq_false_2 by exact Hguest.
  unfold bind at 1.
  destruct (upsertUser (from message) w) as [r w1]. simpl in Hout, Hup. subst r.
  exists w1. split; [exact Hout|].
  unfold dbUser_is_blocked, dbUser_is_verified, dbUser_language.
  rewrite Hblocked, Hlang, (proj2 (Z.eqb_neq _ _) Hverified).
  destruct lang; [contradiction|reflexivity].
Qed.

(** C1, as the code has it.  For a relayed text message (its sender
    passes every gate, so has a username) [translateText] is called
    exactly when the sender's language is not ["zh"], the language
    the code takes for the admin's.  The request sent to the admin carries
    the header, a blank line and the original text, followed, when the
    language is not ["zh"], by a translation block.  With no service key the
    translator returns the text unchanged and no request goes to the
    service: the message is then header plus text for ["zh"], and header
    plus text plus a translation block that repeats the text otherwise. *)
Theorem relay_text_translation_gating (t : jsstring) :
  text message = Some t -> t <> [] ->
  let w' := snd (handlePrivateMessage message env w) in
  let header := header_of (from message) lang in
  let zh := bool_decide (lang = u16 "zh") in
  let translated :=
    match SILICONFLOW_API_KEY env, net w (length (requests w)) with
    | Some (_ :: _), Responds data => str_or (content data) t
    | _, _ => t
    end in
  (translations w'
   = translations w ++ (if zh then [] else [(t, u16 "Chinese")]))
  /\ ((exists call, translations w' = translations w ++ [call])
      <-> lang <> u16 "zh")
  /\ (requests w'
      = requests w
        ++ (if zh then []
            else match SILICONFLOW_API_KEY env with
                 | Some (c :: key) =>
                     [chatCompletions (c :: key)
                        (translate_prompt (u16 "Chinese")) t]
                 | _ => []
                 end)
        ++ [ sendMessage (ADMIN_USER_ID env)
               (header ++ [LF; LF] ++ t
                ++ (if zh then [] else translation_block translated))
               HTML None None ])
  /\ (truthy_str (SILICONFLOW_API_KEY env) = false ->
      requests w'
      = requests w
        ++ [ sendMessage (ADMIN_USER_ID env)
               (header ++ [LF; LF] ++ t
                ++ (if zh then [] else translation_block t))
               HTML None None ]).
Proof using All.
  intros Ht Hne w' header zh translated.
  destruct ready_gate as (w1 & (Hm & Hr & Htr & Hn & Hnow) & Heq).
  destruct (forward_text message env lang t w1 Ht Hne) as [Htrans Hreq].
  rewrite <- Heq, Htr in Htrans. rewrite <- Heq, Hr, Hn in Hreq.
  fold w' in Htrans, Hreq. fold zh in Htrans, Hreq.
  split; [exact Htrans|]. split; [|split; [exact Hreq|]].
  - rewrite Htrans. subst zh. split.
    + intros [call Hcall] ->.
      rewrite bool_decide_eq_true_2 in Hcall by reflexivity.
      apply (f_equal length) in Hcall. rewrite !length_app in Hcall.
      simpl in Hcall. lia.
    + intros Hzh. rewrite bool_decide_eq_false_2 by exact Hzh. eauto.
  - intros Hkey. rewrite Hreq. subst translated.
    destruct (SILICONFLOW_API_KEY env) as [[|c key]|]; try discriminate;
      now destruct zh.
Qed.

(** C6.  For a relayed media message (its sender passes every gate, so
    has a username) the admin receives one copy of the message whose
    caption is built from the header, a blank line and the
    original caption (empty when there is none).  If that text exceeds 1024
    code units the caption sent is its first 1021 units followed by
    ["..."], hence at most 1024 units long and ending in the ellipsis;
    otherwise it is sent unmodified. *)
Theorem relay_media_caption_bounded :
  truthy_str (text message) = false -> isMedia message = true ->
  let w' := snd (handlePrivateMessage message env w) in
  let c := header_of (from message) lang ++ [LF; LF]
           ++ str_or (caption message) [] in
  exists cap,
    requests w'
    = requests w
      ++ [ copyMessage (ADMIN_USER_ID env) (id (from message))
             (message_id message) (Some cap) HTML ]
    /\ ((1024 < length c)%nat ->
          (length cap <= 1024)%nat
          /\ u16 "..." `suffix_of` cap
          /\ cap = take 1021 c ++ u16 "...")
    /\ ((length c <= 1024)%nat -> cap = c).
Proof using All.
  intros Ht Hmedia w' c.
  destruct ready_gate as (w1 & (_ & Hr & _) & Heq).
  exists (newCaption (header_of (from message) lang) (caption message)).
  split.
  - subst w'. rewrite Heq, <- Hr. now apply forward_media.
  - destruct (newCaption_spec (header_of (from message) lang) (caption message))
      as [Hlong Hshort].
    split; [|exact Hshort].
    intros Hlen. destruct (Hlong Hlen) as (Hcap & Hlength & Hsuffix).
    repeat split; [lia|exact Hsuffix|exact Hcap].
Qed.


End ReadyGuest.

(** ** Table [messages] only grows *)

Lemma handlePrivateMessage_messages (message : Message) (env : Env) (w : World) :
  let w' := snd (handlePrivateMessage message env w) in
  messages w' = messages w
  \/ exists k, messages w' = messages w ++ [mapping k message (now w)].
Proof.
  intros w'. subst w'.
  destruct (handlePrivateMessage_cases message env w)
    as [Hsame | (w1 & lang & (Hm & _ & _ & _ & Ht) & ->)]; [now left|].
  destruct (forward_mapping message env lang w1)
    as [Hsame | (k & _ & _ & _ & _ & _ & _ & _ & Hrec & _)].
  - left. now rewrite Hsame.
  - right. exists k. now rewrite Hrec, Hm, Ht.
Qed.

Lemma handleStart_messages (message : Message) (env : Env) (w : World) :
  messages (snd (handleStart message env w)) = messages w.
Proof.
  unfold handleStart, upsertUser, getUser, sendLanguageSelection.
  crush; reflexivity.
Qed.

Lemma handleCallback_messages (callback : Callback) (env : Env) (w : World) :
  messages (snd (handleCallback callback env w)) = messages w.
Proof.
  unfold handleCallback, sendLanguageSelection. crush; reflexivity.
Qed.

Lemma snd_try_catch_ret (c : M unit) (w : World) :
  snd (try_catch c (fun _ => ret tt) w) = snd (c w).
Proof. unfold try_catch, ret. now destruct (c w) as [[|] ?]. Qed.

Lemma webhook_messages (env : Env) (secret : option jsstring) (update : Update)
    (w : World) :
  exists rows, messages (snd (webhook env secret update w)) = messages w ++ rows.
Proof.
  unfold webhook. destruct (_ && _); [exists []; now rewrite app_nil_r|].
  cbn [snd]. rewrite snd_try_catch_ret.
  destruct update as [m|c|].
  - destruct (_ && _).
    + exists []. now rewrite app_nil_r, handleStart_messages.
    + destruct (handlePrivateMessage_messages m env w) as [-> | [k ->]]; eauto.
      exists []. now rewrite app_nil_r.
  - exists []. now rewrite app_nil_r, handleCallback_messages.
  - exists []. now rewrite app_nil_r.
Qed.

Lemma run_events_messages (events : list Event) (w : World) :
  exists rows, messages (run_events events w) = messages w ++ rows.
Proof.
  revert w. induction events as [|[[env secret] update] events IH]; intros w.
  - exists []. now rewrite app_nil_r.
  - unfold run_events in *. simpl.
    destruct (IH (snd (webhook env secret update w))) as [rows2 ->].
    destruct (webhook_messages env secret update w) as [rows1 ->].
    exists (rows1 ++ rows2). now rewrite app_assoc.
Qed.

(** C2, as the code has it.  Take a key [k] that no stored mapping carries.
    Resolving [k] finds nothing.  If the relay of a guest message then
    records its mapping under [k], resolving [k] returns exactly the
    sender's id and the id of the original message, and goes on doing so
    after any later events, whatever they store. *)
Theorem correlation_round_trip
    (message : Message) (env : Env) (w : World) (k : Z) (later : list Event) :
  (forall r, r ∈ messages w -> admin_message_id r <> k) ->
  let w' := snd (handlePrivateMessage message env w) in
  fst (getOriginalSender k w) = Ok None
  /\ ((exists r, messages w' = messages w ++ [r] /\ admin_message_id r = k) ->
      fst (getOriginalSender k (run_events later w'))
      = Ok (Some (id (from message), message_id message))).
Proof.
  intros Hfresh w'. split; [now rewrite resolve_unrecorded|].
  intros (r & Hrec & Hkey).
  assert (Hr : r = mapping k message (now w)).
  { destruct (handlePrivateMessage_messages message env w) as [Hsame | [k' Hk']];
      fold w' in Hsame || fold w' in Hk'.
    - rewrite Hsame in Hrec. apply (f_equal length) in Hrec.
      rewrite length_app in Hrec. simpl in Hrec. lia.
    - rewrite Hk' in Hrec. apply app_inj_tail in Hrec as [_ <-].
      simpl in Hkey. now subst k'. }
  destruct (run_events_messages later w') as [rows Hlater].
  rewrite Hrec, <- app_assoc in Hlater. subst r.
  exact (resolve_first_wins k _ _ _ _ Hlater Hfresh eq_refl).
Qed.

(** ** Blocked users *)

(** A blocked guest's message is dropped: nothing is sent, nothing stored
    in [messages]. *)
Lemma blocked_guest_message_dropped
    (message : Message) (env : Env) (w : World) (row : UserRow)
    (name : jsstring) :
  id (from message) <> ADMIN_USER_ID env ->
  from_username (from message) = Some name ->
  users w !! id (from message) = Some row ->
  is_blocked row <> 0 ->
  exists w1, same_outside w1 w
    /\ handlePrivateMessage message env w = (Ok tt, w1).
Proof.
  intros Hguest Hname Hrow Hblocked.
  pose proof (upsertUser_outside (from message) w) as Hout.
  pose proof (upsertUser_existing (from message) w row name Hrow Hname) as Hup.
  unfold handlePrivateMessage. cbv zeta.
  rewrite bool_decide_eq_false_2 by exact Hguest.
  unfold bind at 1.
  destruct (upsertUser (from message) w) as [r w1]. simpl in Hout, Hup. subst r.
  unfold dbUser_is_blocked. rewrite (proj2 (Z.eqb_neq _ _) Hblocked).
  exists w1. now split.
Qed.

(** The start command never reads [is_blocked]: an unverified user is sent
    the verification prompt whether blocked or not. *)
Lemma handleStart_prompts_unverified
    (message : Message) (env : Env) (w : World) (row : UserRow)
    (name : jsstring) :
  from_username (from message) = Some name ->
  users w !! id (from message) = Some row ->
  is_verified row = 0 ->
  requests (snd (handleStart message env w))
  = requests w
    ++ [ sendMessage (id (from message)) start_prompt None
           (Some [[human_button]]) None ].
Proof.
  intros Hname Hrow Hv. unfold handleStart, upsertUser, getUser. cbv zeta.
  run. rewrite Hrow, Hname.
  destruct (bool_decide _); run; rewrite ?lookup_alter_eq, Hrow; simpl;
    rewrite Hv; change (0 =? 0) with true; crush; reflexivity.
Qed.

(** C3 fails on the code.  Bo is blocked.  His [/start] is answered with
    the verification prompt, and his [verify_human] callback is processed:
    he becomes verified and is sent an acknowledgment and the language
    menu. *)
Theorem blocked_user_is_still_onboarded :
  is_blocked <$> users Sample.w_blocked !! 7 = Some 1
  /\ requests (snd (webhook Sample.env None (UMessage Sample.start)
                      Sample.w_blocked))
     = [ sendMessage 7 start_prompt None (Some [[human_button]]) None ]
  /\ is_verified
       <$> users (snd (webhook Sample.env None
                         (UCallback (Sample.button_press Sample.bo
                                       (u16 "verify_human")))
                         Sample.w_blocked)) !! 7
     = Some 1
  /\ requests (snd (webhook Sample.env None
                      (UCallback (Sample.button_press Sample.bo
                                    (u16 "verify_human")))
                      Sample.w_blocked))
     = [ answerCallbackQuery (u16 "cbq1") (u16 "Verified!");
         editMessageText 7 3 verified_text;
         sendMessage 7 language_prompt None
           (Some [ [ {| btn_text := u16 "Chinese"; callback_data := u16 "lang_zh" |};
                     {| btn_text := u16 "English"; callback_data := u16 "lang_en" |} ];
                   [ {| btn_text := u16 "Japanese"; callback_data := u16 "lang_ja" |};
                     {| btn_text := u16 "Russian"; callback_data := u16 "lang_ru" |} ] ])
           None ].
Proof. repeat split; vm_compute; reflexivity. Qed.

(** ** Admin replies *)

(** What the admin block sends, case by case. *)
Lemma adminReply_requests (message : Message) (env : Env) (w : World) (replied : Z) :
  reply_to_message message = Some replied ->
  let admin := ADMIN_USER_ID env in
  let notice body :=
    sendMessage admin body None None (Some (message_id message)) in
  requests (snd (adminReply message env w))
  = requests w
    ++ match find (fun r => bool_decide (admin_message_id r = replied))
                  (messages w) with
       | None => [notice not_found_text]
       | Some r =>
           copyMessage (user_id r) (chat_id message) (message_id message)
             None None
           :: match net w (length (requests w)) with
              | Rejects e => [notice (failed_text e)]
              | Responds _ =>
                  notice reply_sent_text
                  :: match net w (S (length (requests w))) with
                     | Rejects e => [notice (failed_text e)]
                     | Responds _ => []
                     end
              end
       end.
Proof.
  intros Hreply. unfold adminReply, getOriginalSender. cbv zeta. rewrite Hreply.
  run. destruct (find _ _) as [r|]; crush;
    rewrite ?length_app in *; cbn [length] in *;
    rewrite ?Nat.add_1_r in *; rewrite <- ?app_assoc; cbn [app];
    congruence.
Qed.

(** C8 fails on the code.  The admin replies to a relayed message and the
    Bot API refuses the copy with an error body (no exception is raised):
    the admin is told the reply was sent. *)
Theorem refused_reply_is_acknowledged_as_sent :
  net Sample.w_reply_refused 0 = Responds {| result := None; content := None |}
  /\ requests (snd (webhook Sample.env None (UMessage Sample.admin_reply)
                      Sample.w_reply_refused))
     = [ copyMessage 7 1 30 None None;
         sendMessage 1 reply_sent_text None None (Some 30) ].
Proof. split; vm_compute; reflexivity. Qed.

(** ** Scenarios *)

(** Scenario D with the service configured: the translator is asked once
    and its answer fills the translation block; the mapping is recorded
    under the id the admin-side message got. *)
Example relay_with_translation :
  let w' := snd (handlePrivateMessage Sample.hello Sample.env_translating
                   (Sample.w_ready
                      [ Responds {| result := None;
                                    content := Some [0x4F60%N; 0x597D%N] |};
                        Sample.delivered 55 ])) in
  requests w'
  = [ chatCompletions (u16 "sk-1") (translate_prompt (u16 "Chinese")) (u16 "Hello");
      sendMessage 1
        (header_of Sample.bo (u16 "en") ++ [LF; LF] ++ u16 "Hello"
         ++ translation_block [0x4F60%N; 0x597D%N])
        HTML None None ]
  /\ messages w' = [ mapping 55 Sample.hello 1700000000000 ].
Proof. split; vm_compute; reflexivity. Qed.

(** Bo writes "Hello"; no translation service is configured. *)
Lemma relay_text_translation_gating_witness :
  translations (snd (handlePrivateMessage Sample.hello Sample.env
                       (Sample.w_ready [Sample.delivered 55])))
  = [(u16 "Hello", u16 "Chinese")]
  /\ requests (snd (handlePrivateMessage Sample.hello Sample.env
                      (Sample.w_ready [Sample.delivered 55])))
     = [ sendMessage 1
           (header_of Sample.bo (u16 "en") ++ [LF; LF] ++ u16 "Hello"
            ++ translation_block (u16 "Hello"))
           HTML None None ].
Proof.
  assert (Hguest : id (from Sample.hello) <> ADMIN_USER_ID Sample.env)
    by (vm_compute; discriminate).
  assert (Hverified : is_verified (Sample.row_of Sample.bo 1 (Some (u16 "en")) 0) <> 0)
    by (vm_compute; discriminate).
  assert (Hlang : u16 "en" <> []) by (vm_compute; discriminate).
  assert (Htext : u16 "Hello" <> []) by (vm_compute; discriminate).
  destruct (relay_text_translation_gating Sample.hello Sample.env
              (Sample.w_ready [Sample.delivered 55])
              (Sample.row_of Sample.bo 1 (Some (u16 "en")) 0) (u16 "en") (u16 "bo")
              Hguest eq_refl eq_refl eq_refl Hverified eq_refl Hlang
              (u16 "Hello") eq_refl Htext) as (Htrans & _ & _ & Hunset).
  split; [exact Htrans | exact (Hunset eq_refl)].
Defined.

(** C1 as stated fails: with no service key the admin still receives a
    translation block after header and text. *)
Lemma unset_service_still_adds_translation_block :
  SILICONFLOW_API_KEY Sample.env = None
  /\ requests (snd (handlePrivateMessage Sample.hello Sample.env
                      (Sample.w_ready [Sample.delivered 55])))
     = [ sendMessage 1
           (header_of Sample.bo (u16 "en") ++ [LF; LF] ++ u16 "Hello"
            ++ [LF; LF] ++ u16 "<b>Translation:</b>" ++ [LF] ++ u16 "Hello")
           HTML None None ]
  /\ requests (snd (handlePrivateMessage Sample.hello Sample.env
                      (Sample.w_ready [Sample.delivered 55])))
     <> [ sendMessage 1
            (header_of Sample.bo (u16 "en") ++ [LF; LF] ++ u16 "Hello")
            HTML None None ].
Proof.
  split; [reflexivity|]. split; [vm_compute; reflexivity|].
  vm_compute. discriminate.
Qed.

(** Bo's message is relayed under id 55; later Ann's is relayed under 56;
    55 still resolves to Bo's message. *)
Lemma correlation_round_trip_witness :
  fst (getOriginalSender 55
         (run_events [ (Sample.env, None, UMessage Sample.nihao) ]
            (snd (handlePrivateMessage Sample.hello Sample.env
                    (Sample.w_ready [Sample.delivered 55; Sample.delivered 56])))))
  = Ok (Some (7, 9)).
Proof.
  refine (proj2 (correlation_round_trip Sample.hello Sample.env
                   (Sample.w_ready [Sample.delivered 55; Sample.delivered 56])
                   55 [ (Sample.env, None, UMessage Sample.nihao) ] _) _).
  - intros r Hr. now apply elem_of_nil in Hr.
  - eexists. split; vm_compute; reflexivity.
Defined.

(** C2 as stated fails.  Bo's message is relayed by the bot, Cy's by the
    bot that replaced it on the same database, and both deliveries get
    message id 55, each bot numbering its own messages.  Both mappings are
    stored, and the id resolves to the first, not to the pair recorded for
    the second. *)
Lemma repeated_key_resolves_to_first :
  messages Sample.w_same_id_twice
  = [ mapping 55 Sample.hello 1700000000000;
      mapping 55 Sample.hola 1700000000000 ]
  /\ fst (getOriginalSender 55 Sample.w_same_id_twice) = Ok (Some (7, 9))
  /\ fst (getOriginalSender 55 Sample.w_same_id_twice)
     <> Ok (Some (id (from Sample.hola), message_id Sample.hola)).
Proof.
  split; [vm_compute; reflexivity|]. split; [vm_compute; reflexivity|].
  vm_compute. discriminate.
Qed.

(** C4 as stated fails: Bo sends a sticker; the Bot API refuses the header
    message and accepts the copy; the mapping is recorded although one
    step of the delivery failed. *)
Lemma refused_header_still_records :
  net (Sample.w_ready [Sample.refused; Sample.delivered 55]) 0
  = Responds {| result := None; content := None |}
  /\ requests (snd (handlePrivateMessage (Sample.sticker Sample.bo 9) Sample.env
                      (Sample.w_ready [Sample.refused; Sample.delivered 55])))
     = [ sendMessage 1 (header_of Sample.bo (u16 "en")) HTML None None;
         copyMessage 1 7 9 None None ]
  /\ messages (snd (handlePrivateMessage (Sample.sticker Sample.bo 9) Sample.env
                      (Sample.w_ready [Sample.refused; Sample.delivered 55])))
     = [ mapping 55 (Sample.sticker Sample.bo 9) 1700000000000 ].
Proof. repeat split; vm_compute; reflexivity. Qed.

(** C5 as stated fails: recording under a key already stored succeeds, and
    two stored mappings then share the key. *)
Lemma duplicate_key_is_accepted :
  fst (saveMessageMapping 55 8 4
         (snd (saveMessageMapping 55 7 9 (Sample.w_ready []))))
  = Ok tt
  /\ map admin_message_id
       (messages (snd (saveMessageMapping 55 8 4
                         (snd (saveMessageMapping 55 7 9 (Sample.w_ready []))))))
     = [55; 55]
  /\ ~ NoDup (map admin_message_id
                (messages (snd (saveMessageMapping 55 8 4
                                  (snd (saveMessageMapping 55 7 9
                                          (Sample.w_ready []))))))).
Proof.
  split; [reflexivity|]. split; [reflexivity|].
  change (~ NoDup [55; 55]). intros H. apply NoDup_cons in H as [Hin _].
  apply Hin. left.
Qed.

(** Bo sends a photo whose caption is 2000 units long. *)
Lemma relay_media_caption_bounded_witness :
  exists cap,
    requests (snd (handlePrivateMessage Sample.long_photo Sample.env
                     (Sample.w_ready [Sample.delivered 55])))
    = [ copyMessage 1 7 9 (Some cap) HTML ]
    /\ (length cap <= 1024)%nat
    /\ u16 "..." `suffix_of` cap.
Proof.
  assert (Hguest : id (from Sample.long_photo) <> ADMIN_USER_ID Sample.env)
    by (vm_compute; discriminate).
  assert (Hverified : is_verified (Sample.row_of Sample.bo 1 (Some (u16 "en")) 0) <> 0)
    by (vm_compute; discriminate).
  assert (Hlang : u16 "en" <> []) by (vm_compute; discriminate).
  destruct (relay_media_caption_bounded Sample.long_photo Sample.env
              (Sample.w_ready [Sample.delivered 55])
              (Sample.row_of Sample.bo 1 (Some (u16 "en")) 0) (u16 "en") (u16 "bo")
              Hguest eq_refl eq_refl eq_refl Hverified eq_refl Hlang eq_refl eq_refl)
    as (cap & Hreq & Hlong & _).
  exists cap. split; [exact Hreq|].
  assert (Hlen : (1024 < length (header_of (from Sample.long_photo) (u16 "en")
                                   ++ [LF; LF]
                                   ++ str_or (caption Sample.long_photo) []))%nat).
  { vm_compute. lia. }
  destruct (Hlong Hlen) as (Hle & Hsuffix & _). now split.
Defined.

(** Bo presses the verification button twice. *)
Lemma verify_human_idempotent_witness :
  exists row',
    users (replay Sample.env
             [ Sample.button_press Sample.bo (u16 "verify_human");
               Sample.button_press Sample.bo (u16 "verify_human") ]
             Sample.w_unverified) !! 7 = Some row'
    /\ is_verified row' = 1.
Proof.
  assert (Hall : Forall (fun c => cb_data c = u16 "verify_human"
                                  /\ id (cb_from c) = 7)
                   [ Sample.button_press Sample.bo (u16 "verify_human");
                     Sample.button_press Sample.bo (u16 "verify_human") ]).
  { repeat constructor. }
  destruct (verify_human_idempotent Sample.env 7 _ _ Sample.w_unverified Hall)
    as (_ & _ & Hrow).
  destruct (Hrow (Sample.row_of Sample.bo 0 None 0) eq_refl)
    as (row' & Hlookup & Hv & _).
  exists row'. now split.
Defined.

(** * Further properties of the worker *)

(** ** UserDirectory: [upsertUser] *)

Lemma set_names_same (user : TgUser) (row : UserRow) :
  username row = from_username user ->
  first_name row = from_first_name user ->
  set_names user row = row.
Proof. destruct row; simpl; intros -> ->; reflexivity. Qed.

(** The users table after an upsert, in one equation. *)
Lemma upsertUser_users (user : TgUser) (w : World) :
  users (snd (upsertUser user w))
  = match from_username user, users w !! id user with
    | None, _ => users w
    | Some _, None => <[id user := new_row user (now w)]> (users w)
    | Some _, Some row => <[id user := set_names user row]> (users w)
    end.
Proof.
  destruct (from_username user) as [name|] eqn:Hname;
    [|now rewrite upsertUser_no_username].
  unfold upsertUser, getUser. run. rewrite Hname.
  destruct (users w !! id user) as [row|] eqn:Hrow; run; [|reflexivity].
  destruct (bool_decide _) eqn:Hsame; run.
  - apply bool_decide_eq_true in Hsame as [Hu Hf].
    rewrite set_names_same by congruence. symmetry. now apply insert_id.
  - apply map_eq. intros i. destruct (decide (i = id user)) as [->|Hne].
    + now rewrite lookup_alter_eq, lookup_insert_eq, Hrow.
    + now rewrite lookup_alter_ne, lookup_insert_ne by congruence.
Qed.

Lemma upsertUser_result (user : TgUser) (w : World) :
  fst (upsertUser user w)
  = match from_username user, users w !! id user with
    | None, _ => Throw D1_TYPE_ERROR
    | Some _, None => Ok IsNew
    | Some _, Some row => Ok (Existing row)
    end.
Proof.
  destruct (from_username user) as [name|] eqn:Hname;
    [|now rewrite upsertUser_no_username].
  unfold upsertUser, getUser. run. rewrite Hname.
  destruct (users w !! id user); crush; reflexivity.
Qed.

(** X1.  For a sender with a username, [upsertUser] inserts a row only
    when the sender has none: the new row carries the sender's names, is
    unverified, has no language and is not blocked.  For a known sender it
    overwrites the two name columns with the sender's current names and
    keeps every other column; what it returns is the row as it was read,
    before that update.  For a sender without a username it faults with
    the store's type error and leaves everything as it was.  No other
    user's row is ever touched. *)
Theorem upsertUser_inserts_or_refreshes_names (user : TgUser) (w : World) :
  let w' := snd (upsertUser user w) in
  (forall uid, uid <> id user -> users w' !! uid = users w !! uid)
  /\ match from_username user with
     | None => upsertUser user w = (Throw D1_TYPE_ERROR, w)
     | Some name =>
         exists row', users w' !! id user = Some row'
           /\ username row' = Some name
           /\ first_name row' = from_first_name user
           /\ match users w !! id user with
              | None =>
                  fst (upsertUser user w) = Ok IsNew
                  /\ is_verified row' = 0 /\ language row' = None
                  /\ is_blocked row' = 0 /\ blocked_at row' = None
                  /\ created_at row' = now w
              | Some row =>
                  fst (upsertUser user w) = Ok (Existing row)
                  /\ is_verified row' = is_verified row
                  /\ language row' = language row
                  /\ is_blocked row' = is_blocked row
                  /\ blocked_at row' = blocked_at row
                  /\ created_at row' = created_at row
              end
     end.
Proof.
  intros w'. subst w'. rewrite upsertUser_users, upsertUser_result.
  destruct (from_username user) as [name|] eqn:Hname.
  - split.
    + intros uid Hne.
      destruct (users w !! id user); now rewrite lookup_insert_ne by congruence.
    + destruct (users w !! id user) as [row|]; rewrite lookup_insert_eq;
        eexists; (split; [reflexivity|]); simpl; rewrite Hname; repeat split.
  - split; [reflexivity|]. now apply upsertUser_no_username.
Qed.

(** X2.  Upserting the same sender again changes nothing: the users table
    after two upserts is the table after one, and for a sender with a
    username the second call finds the row the first one left. *)
Theorem upsertUser_twice (user : TgUser) (w : World) :
  let w1 := snd (upsertUser user w) in
  users (snd (upsertUser user w1)) = users w1
  /\ forall name, from_username user = Some name ->
       exists row, users w1 !! id user = Some row
         /\ fst (upsertUser user w1) = Ok (Existing row).
Proof.
  intros w1. destruct (from_username user) as [name|] eqn:Hname.
  - assert (Hrow : exists row, users w1 !! id user = Some row
                     /\ set_names user row = row).
    { subst w1. rewrite upsertUser_users, Hname.
      destruct (users w !! id user) as [row|]; rewrite lookup_insert_eq;
        eexists; split; reflexivity. }
    destruct Hrow as (row & Hlookup & Hnames). split.
    + rewrite upsertUser_users, Hname, Hlookup, Hnames. now apply insert_id.
    + intros _ _. exists row. split; [exact Hlookup|].
      now rewrite upsertUser_result, Hname, Hlookup.
  - split; [|discriminate].
    subst w1. now rewrite !upsertUser_no_username.
Qed.

(** ** The language menu *)

Lemma rows_of_two_pairs (buttons : list Button) :
  (concat (rows_of_two buttons) = buttons
   /\ Forall (fun row => length row = 2%nat \/ length row = 1%nat)
             (rows_of_two buttons)
   /\ length (rows_of_two buttons) = Nat.div2 (S (length buttons)))
  /\ (forall b,
        concat (rows_of_two (b :: buttons)) = b :: buttons
        /\ Forall (fun row => length row = 2%nat \/ length row = 1%nat)
                  (rows_of_two (b :: buttons))
        /\ length (rows_of_two (b :: buttons))
           = Nat.div2 (S (S (length buttons)))).
Proof.
  induction buttons as [|b1 rest [IH0 IH1]].
  - split; [split; [reflexivity|split; [constructor|reflexivity]]|].
    intros b. split; [reflexivity|]. split; [|reflexivity].
    constructor; [now right|constructor].
  - split; [apply IH1|].
    intros b. destruct IH0 as (Hc & Hf & Hl).
    cbn [rows_of_two concat app length].
    split; [now rewrite Hc|]. split; [constructor; [now left|exact Hf]|].
    rewrite Hl. reflexivity.
Qed.

(** X3.  Buttons are laid out without loss and in order: flattening the
    rows gives the buttons back, every row holds two buttons or one, and
    there are half as many rows as buttons, rounded up. *)
Theorem rows_of_two_layout (buttons : list Button) :
  concat (rows_of_two buttons) = buttons
  /\ Forall (fun row => length row = 2%nat \/ length row = 1%nat)
            (rows_of_two buttons)
  /\ length (rows_of_two buttons) = Nat.div2 (S (length buttons)).
Proof. exact (proj1 (rows_of_two_pairs buttons)). Qed.

Lemma sendLanguageSelection_requests (chat : Z) (env : Env) (w : World) :
  requests (snd (sendLanguageSelection chat env w))
  = requests w
    ++ [sendMessage chat language_prompt None (Some language_keyboard) None].
Proof. unfold sendLanguageSelection. crush; reflexivity. Qed.

(** X4.  The language menu and the language callback fit together: the
    menu is one message with the keyboard of supported languages, and
    pressing any of its buttons stores the code of a supported language,
    answers the callback with that code and, unless that answer throws,
    edits the message to the acknowledgment that names the language by the
    label of the button pressed. *)
Theorem language_menu_buttons_select_their_language
    (chat : Z) (env : Env) (w : World) :
  requests (snd (sendLanguageSelection chat env w))
  = requests w
    ++ [sendMessage chat language_prompt None (Some language_keyboard) None]
  /\ forall b, b ∈ concat language_keyboard ->
       forall callback w2, cb_data callback = callback_data b ->
       exists code,
         (code, btn_text b) ∈ SUPPORTED_LANGS
         /\ users (snd (handleCallback callback env w2))
            = alter (set_language code) (id (cb_from callback)) (users w2)
         /\ requests (snd (handleCallback callback env w2))
            = requests w2
              ++ answerCallbackQuery (cb_id callback)
                   (u16 "Language set to " ++ code)
              :: match net w2 (length (requests w2)) with
                 | Responds _ =>
                     [ editMessageText (id (cb_from callback))
                         (cb_message_id callback)
                         (CHECK_MARK ++ u16 " Language set to " ++ btn_text b
                          ++ u16 ". You can now send messages.") ]
                 | Rejects _ => []
                 end.
Proof.
  split; [apply sendLanguageSelection_requests|].
  intros b Hb callback w2 Hd.
  vm_compute in Hb.
  assert (Hpress : forall code,
            cb_data callback = u16 "lang_" ++ code ->
            split UNDERSCORE (cb_data callback) !! 1%nat = Some code ->
            users (snd (handleCallback callback env w2))
            = alter (set_language code) (id (cb_from callback)) (users w2)
            /\ requests (snd (handleCallback callback env w2))
               = requests w2
                 ++ answerCallbackQuery (cb_id callback)
                      (u16 "Language set to " ++ code)
                 :: match net w2 (length (requests w2)) with
                    | Responds _ =>
                        [ editMessageText (id (cb_from callback))
                            (cb_message_id callback) (language_set_text code) ]
                    | Rejects _ => []
                    end).
  { intros code Hcode Hsplit. split.
    - exact (handleCallback_lang_users _ _ _ _ _ Hcode Hsplit).
    - exact (handleCallback_lang_requests _ _ _ _ _ Hcode Hsplit). }
  repeat (apply elem_of_cons in Hb as [->|Hb]);
    [ exists (u16 "zh"); destruct (Hpress (u16 "zh")) as [Hu Hr]
    | exists (u16 "en"); destruct (Hpress (u16 "en")) as [Hu Hr]
    | exists (u16 "ja"); destruct (Hpress (u16 "ja")) as [Hu Hr]
    | exists (u16 "ru"); destruct (Hpress (u16 "ru")) as [Hu Hr]
    | now apply elem_of_nil in Hb ];
    try exact Hd; try (rewrite Hd; vm_compute; reflexivity).
  all: split; [apply list_elem_of_In; vm_compute; tauto|].
  all: split; [exact Hu|exact Hr].
Qed.

(** ** The start command *)

(** Running the upsert in front of the rest of a handler. *)
Lemma bind_upsertUser {B : Type} (user : TgUser) (name : jsstring)
    (k : Upserted -> M B) (w : World) :
  from_username user = Some name ->
  bind (upsertUser user) k w
  = k match users w !! id user with
      | None => IsNew
      | Some row => Existing row
      end (snd (upsertUser user w)).
Proof.
  intros Hname. unfold bind. pose proof (upsertUser_result user w) as Hres.
  rewrite Hname in Hres.
  destruct (upsertUser user w) as [r w1]. simpl in *.
  destruct (users w !! id user); subst r; reflexivity.
Qed.

Lemma bind_upsertUser_no_username {B : Type} (user : TgUser)
    (k : Upserted -> M B) (w : World) :
  from_username user = None ->
  bind (upsertUser user) k w = (Throw D1_TYPE_ERROR, w).
Proof. intros Hname. unfold bind. now rewrite upsertUser_no_username. Qed.

Lemma upsertUser_lookup (user : TgUser) (name : jsstring) (w : World) :
  from_username user = Some name ->
  users (snd (upsertUser user w)) !! id user
  = Some match users w !! id user with
         | None => new_row user (now w)
         | Some row => set_names user row
         end.
Proof.
  intros Hname. rewrite upsertUser_users, Hname.
  destruct (users w !! id user); now rewrite lookup_insert_eq.
Qed.

Lemma handleStart_spec (message : Message) (env : Env) (w : World)
    (name : jsstring) :
  from_username (from message) = Some name ->
  let user := from message in
  let w' := snd (handleStart message env w) in
  users w' = users (snd (upsertUser user w))
  /\ messages w' = messages w
  /\ requests w'
     = requests w
       ++ [ sendMessage (id user) (fst (start_reply (users w !! id user))) None
              (snd (start_reply (users w !! id user))) None ].
Proof.
  intros Hname. cbv zeta. unfold handleStart. cbv zeta.
  rewrite (bind_upsertUser _ name) by exact Hname.
  pose proof (upsertUser_outside (from message) w) as (Hm & Hr & _).
  pose proof (upsertUser_lookup (from message) name w Hname) as Hl.
  remember (snd (upsertUser (from message) w)) as w1 eqn:Hw1. clear Hw1.
  rewrite <- Hm, <- Hr. unfold getUser, sendLanguageSelection. run. rewrite Hl.
  unfold start_reply.
  destruct (users w !! id (from message)) as [row|]; simpl.
  - destruct (is_verified row =? 0); [crush; repeat split|].
    destruct (truthy_str (language row)); simpl; crush; repeat split.
  - crush; repeat split.
Qed.

(** The start command changes the users table as the upsert does, and in
    no other way. *)
Lemma handleStart_users (message : Message) (env : Env) (w : World) :
  users (snd (handleStart message env w))
  = users (snd (upsertUser (from message) w)).
Proof.
  destruct (from_username (from message)) as [name|] eqn:Hname.
  - exact (proj1 (handleStart_spec message env w name Hname)).
  - unfold handleStart. cbv zeta.
    now rewrite bind_upsertUser_no_username, upsertUser_no_username.
Qed.

(** X5.  For a sender with a username, the start command registers or
    refreshes the sender exactly as [upsertUser] does, changes nothing
    else, and answers with one message to the sender chosen by the state
    read back: the verification prompt for a new or unverified user, the
    language menu for a verified user without a language, the welcome
    notice otherwise.  Repeating the command repeats the prompt; the block
    flag is not consulted. *)
Theorem handleStart_prompts_by_state (message : Message) (env : Env) (w : World)
    (name : jsstring) :
  from_username (from message) = Some name ->
  let user := from message in
  let w' := snd (handleStart message env w) in
  users w' = users (snd (upsertUser user w))
  /\ messages w' = messages w
  /\ requests w'
     = requests w
       ++ [ sendMessage (id user) (fst (start_reply (users w !! id user))) None
              (snd (start_reply (users w !! id user))) None ].
Proof. exact (handleStart_spec message env w name). Qed.

Lemma handleStart_prompts_by_state_witness :
  requests (snd (handleStart (Sample.text_message Sample.cy 2 (u16 "/start"))
                   Sample.env Sample.w_choosing))
  = [ sendMessage 9 start_prompt None (Some [[human_button]]) None ]
  /\ is_Some (users (snd (handleStart
                            (Sample.text_message Sample.cy 2 (u16 "/start"))
                            Sample.env Sample.w_choosing)) !! 9).
Proof.
  destruct (handleStart_prompts_by_state
              (Sample.text_message Sample.cy 2 (u16 "/start"))
              Sample.env Sample.w_choosing (u16 "cy") eq_refl)
    as (Hu & _ & Hr).
  split; [exact Hr|]. rewrite Hu. vm_compute. eauto.
Defined.

(** ** The translator *)

(** X6.  [translateText] never throws.  Without a service key it sends
    nothing and returns the text.  With a key it sends one chat-completion
    request and returns the content of the answer, falling back to the
    text when the request is rejected or the content is missing or empty.
    It does not touch the store. *)
Theorem translateText_falls_back_to_text
    (text targetLang : jsstring) (env : Env) (w : World) :
  let w' := snd (translateText text targetLang env w) in
  fst (translateText text targetLang env w)
  = Ok match SILICONFLOW_API_KEY env, net w (length (requests w)) with
       | Some (_ :: _), Responds data => str_or (content data) text
       | _, _ => text
       end
  /\ requests w'
     = requests w
       ++ match SILICONFLOW_API_KEY env with
          | Some (c :: key) =>
              [chatCompletions (c :: key) (translate_prompt targetLang) text]
          | _ => []
          end
  /\ users w' = users w /\ messages w' = messages w.
Proof.
  unfold translateText. crush; rewrite ?app_nil_r; repeat split.
Qed.

(** ** Guests who have not completed onboarding *)

Lemma unready_guest_spec (message : Message) (env : Env) (w : World)
    (name : jsstring) :
  id (from message) <> ADMIN_USER_ID env ->
  from_username (from message) = Some name ->
  (users w !! id (from message) = None
   \/ exists row, users w !! id (from message) = Some row
        /\ is_blocked row = 0
        /\ (is_verified row = 0 \/ truthy_str (language row) = false)) ->
  let user := from message in
  let w' := snd (handlePrivateMessage message env w) in
  let verified :=
    match users w !! id user with
    | Some row => negb (is_verified row =? 0)
    | None => false
    end in
  users w' = users (snd (upsertUser user w))
  /\ messages w' = messages w
  /\ requests w'
     = requests w
       ++ [ if verified
            then sendMessage (id user) language_prompt None
                   (Some language_keyboard) None
            else sendMessage (id user) verify_first_text None
                   (Some [[verify_button]]) None ].
Proof.
  intros Hguest Hname Hstate. cbv zeta. unfold handlePrivateMessage. cbv zeta.
  rewrite bool_decide_eq_false_2 by exact Hguest.
  rewrite (bind_upsertUser _ name) by exact Hname.
  pose proof (upsertUser_outside (from message) w) as (Hm & Hr & _).
  remember (snd (upsertUser (from message) w)) as w1 eqn:Hw1. clear Hw1.
  rewrite <- Hm, <- Hr. unfold sendLanguageSelection.
  destruct Hstate as [-> | (row & -> & Hb & Hstate)]; simpl.
  - crush; repeat split.
  - rewrite Hb. simpl. destruct Hstate as [Hv | Hl].
    + rewrite Hv. simpl. crush; repeat split.
    + destruct (is_verified row =? 0); simpl; [crush; repeat split|].
      destruct (language row) as [[|c l]|]; try discriminate;
        crush; repeat split.
Qed.

(** X7.  A guest with a username who is new, unverified or without a
    language is never relayed: the message leaves table [messages]
    untouched and produces exactly one request, addressed to the guest,
    the verification prompt for a new or unverified guest and the language
    menu for a verified one.  A first message from an unknown guest
    creates the guest's row. *)
Theorem unready_guest_is_prompted_not_relayed
    (message : Message) (env : Env) (w : World) (name : jsstring) :
  id (from message) <> ADMIN_USER_ID env ->
  from_username (from message) = Some name ->
  (users w !! id (from message) = None
   \/ exists row, users w !! id (from message) = Some row
        /\ is_blocked row = 0
        /\ (is_verified row = 0 \/ truthy_str (language row) = false)) ->
  let user := from message in
  let w' := snd (handlePrivateMessage message env w) in
  let verified :=
    match users w !! id user with
    | Some row => negb (is_verified row =? 0)
    | None => false
    end in
  users w' = users (snd (upsertUser user w))
  /\ messages w' = messages w
  /\ requests w'
     = requests w
       ++ [ if verified
            then sendMessage (id user) language_prompt None
                   (Some language_keyboard) None
            else sendMessage (id user) verify_first_text None
                   (Some [[verify_button]]) None ].
Proof. exact (unready_guest_spec message env w name). Qed.

Lemma unready_guest_is_prompted_not_relayed_witness :
  is_Some (users (snd (handlePrivateMessage Sample.hello Sample.env
                         (Sample.world ∅ [] []))) !! 7)
  /\ requests (snd (handlePrivateMessage Sample.hello Sample.env
                      (Sample.world ∅ [] [])))
     = [ sendMessage 7 verify_first_text None (Some [[verify_button]]) None ].
Proof.
  assert (Hguest : id (from Sample.hello) <> ADMIN_USER_ID Sample.env)
    by (vm_compute; discriminate).
  assert (Hnew : users (Sample.world ∅ [] []) !! id (from Sample.hello) = None)
    by reflexivity.
  destruct (unready_guest_is_prompted_not_relayed Sample.hello Sample.env
              (Sample.world ∅ [] []) (u16 "bo") Hguest eq_refl (or_introl Hnew))
    as (Hu & _ & Hr).
  split; [|exact Hr].
  rewrite Hu. vm_compute. eauto.
Defined.

(** ** Payloads that cannot carry a caption *)

Lemma forward_other (message : Message) (env : Env) (lang : jsstring) (w : World) :
  truthy_str (text message) = false -> isMedia message = false ->
  requests (snd (forwardToAdmin message env lang w))
  = requests w
    ++ sendMessage (ADMIN_USER_ID env) (header_of (from message) lang)
         HTML None None
    :: match net w (length (requests w)) with
       | Responds _ =>
           [ copyMessage (ADMIN_USER_ID env) (id (from message))
               (message_id message) None None ]
       | Rejects _ => []
       end.
Proof.
  intros Ht Hmedia.
  unfold forwardToAdmin, saveMessageMapping. cbv zeta. rewrite Hmedia.
  destruct (text message) as [[|c t]|]; try discriminate;
    crush; now rewrite <- ?app_assoc.
Qed.

(** X8.  A relayed message that is neither text nor media (a sticker, a
    dice) reaches the admin as two requests: first the header as a message
    of its own, then the copy of the guest's message with no caption.  If
    the header request throws, the copy is never attempted.  (A ready
    guest is one past every gate, the upsert among them, which a sender
    passes only with a username.) *)
Theorem relay_uncaptioned_header_then_copy
    (message : Message) (env : Env) (w : World) (row : UserRow)
    (lang name : jsstring) :
  id (from message) <> ADMIN_USER_ID env ->
  from_username (from message) = Some name ->
  users w !! id (from message) = Some row ->
  is_blocked row = 0 -> is_verified row <> 0 ->
  language row = Some lang -> lang <> [] ->
  truthy_str (text message) = false -> isMedia message = false ->
  requests (snd (handlePrivateMessage message env w))
  = requests w
    ++ sendMessage (ADMIN_USER_ID env) (header_of (from message) lang)
         HTML None None
    :: match net w (length (requests w)) with
       | Responds _ =>
           [ copyMessage (ADMIN_USER_ID env) (id (from message))
               (message_id message) None None ]
       | Rejects _ => []
       end.
Proof.
  intros Hguest Hname Hrow Hb Hv Hl Hne Ht Hmedia.
  destruct (ready_gate message env w row lang name Hguest Hname Hrow Hb Hv Hl Hne)
    as (w1 & (_ & Hr & _ & Hn & _) & ->).
  rewrite <- Hr, <- Hn. now apply forward_other.
Qed.

Lemma relay_uncaptioned_header_then_copy_witness :
  requests (snd (handlePrivateMessage (Sample.sticker Sample.bo 9) Sample.env
                   (Sample.w_ready [Sample.delivered 54; Sample.delivered 55])))
  = [ sendMessage 1 (header_of Sample.bo (u16 "en")) HTML None None;
      copyMessage 1 7 9 None None ].
Proof.
  assert (Hguest : id (from (Sample.sticker Sample.bo 9)) <> ADMIN_USER_ID Sample.env)
    by (vm_compute; discriminate).
  assert (Hverified : is_verified (Sample.row_of Sample.bo 1 (Some (u16 "en")) 0) <> 0)
    by (vm_compute; discriminate).
  assert (Hlang : u16 "en" <> []) by (vm_compute; discriminate).
  exact (relay_uncaptioned_header_then_copy (Sample.sticker Sample.bo 9)
           Sample.env (Sample.w_ready [Sample.delivered 54; Sample.delivered 55])
           (Sample.row_of Sample.bo 1 (Some (u16 "en")) 0) (u16 "en") (u16 "bo")
           Hguest eq_refl eq_refl eq_refl Hverified eq_refl Hlang eq_refl eq_refl).
Defined.

(** ** Messages from the admin *)

Lemma authorized_passes (env : Env) (secret : option jsstring) :
  authorized env secret ->
  truthy_str (TELEGRAM_WEBHOOK_SECRET env)
  && negb (bool_decide (secret = TELEGRAM_WEBHOOK_SECRET env)) = false.
Proof.
  intros [-> | ->]; [reflexivity|].
  rewrite bool_decide_eq_true_2 by reflexivity. apply andb_false_r.
Qed.


Lemma admin_handlePrivateMessage (message : Message) (env : Env) (w : World) :
  id (from message) = ADMIN_USER_ID env ->
  let w' := snd (handlePrivateMessage message env w) in
  let admin := ADMIN_USER_ID env in
  let notice body :=
    sendMessage admin body None None (Some (message_id message)) in
  users w' = users w
  /\ messages w' = messages w
  /\ requests w'
     = requests w
       ++ match reply_to_message message with
          | None => []
          | Some replied =>
              match find (fun r => bool_decide (admin_message_id r = replied))
                         (messages w) with
              | None => [notice not_found_text]
              | Some r =>
                  copyMessage (user_id r) (chat_id message) (message_id message)
                    None None
                  :: match net w (length (requests w)) with
                     | Rejects e => [notice (failed_text e)]
                     | Responds _ =>
                         notice reply_sent_text
                         :: match net w (S (length (requests w))) with
                            | Rejects e => [notice (failed_text e)]
                            | Responds _ => []
                            end
                     end
              end
          end.
Proof.
  intros Hadmin. cbv zeta. unfold handlePrivateMessage. cbv zeta.
  rewrite bool_decide_eq_true_2 by exact Hadmin.
  split; [|split].
  - unfold adminReply, getOriginalSender. crush; reflexivity.
  - unfold adminReply, getOriginalSender. crush; reflexivity.
  - destruct (reply_to_message message) as [replied|] eqn:Hreply.
    + now apply adminReply_requests.
    + unfold adminReply. rewrite Hreply. run. now rewrite app_nil_r.
Qed.

(** X9.  A webhook message from the admin whose text does not begin with
    [/start] never changes the store: no user row is created or altered
    and no mapping is written.  If it is not a reply, nothing is sent.  If
    it replies to a message without a stored mapping, the admin gets the
    not-found notice.  Otherwise the reply is copied to the guest the first
    matching mapping names; the admin then gets the sent notice, or, when
    the copy (or the sent notice) throws, the failure notice carrying the
    message of the fault.  Every notice answers the admin's own message.
    (An admin text that begins with [/start] is the start command, like
    anybody's.) *)
Theorem admin_message_outcomes
    (env : Env) (secret : option jsstring) (message : Message) (w : World) :
  authorized env secret ->
  id (from message) = ADMIN_USER_ID env ->
  truthy_str (text message)
  && startsWith (default [] (text message)) (u16 "/start") = false ->
  let w' := snd (webhook env secret (UMessage message) w) in
  let admin := ADMIN_USER_ID env in
  let notice body :=
    sendMessage admin body None None (Some (message_id message)) in
  fst (webhook env secret (UMessage message) w) = (u16 "OK", 200)
  /\ users w' = users w
  /\ messages w' = messages w
  /\ requests w'
     = requests w
       ++ match reply_to_message message with
          | None => []
          | Some replied =>
              match find (fun r => bool_decide (admin_message_id r = replied))
                         (messages w) with
              | None => [notice not_found_text]
              | Some r =>
                  copyMessage (user_id r) (chat_id message) (message_id message)
                    None None
                  :: match net w (length (requests w)) with
                     | Rejects e => [notice (failed_text e)]
                     | Responds _ =>
                         notice reply_sent_text
                         :: match net w (S (length (requests w))) with
                            | Rejects e => [notice (failed_text e)]
                            | Responds _ => []
                            end
                     end
              end
          end.
Proof.
  intros Hauth Hadmin Hstart. cbv zeta. unfold webhook.
  rewrite (authorized_passes _ _ Hauth), Hstart. cbn [fst snd].
  rewrite snd_try_catch_ret.
  split; [reflexivity|]. exact (admin_handlePrivateMessage message env w Hadmin).
Qed.

Lemma admin_message_outcomes_witness :
  requests (snd (webhook Sample.env None
                   (UMessage (Sample.reply Sample.admin 30 77 (u16 "Hi")))
                   Sample.w_reply_refused))
  = [ sendMessage 1 not_found_text None None (Some 30) ].
Proof.
  exact (proj2 (proj2 (proj2 (admin_message_outcomes Sample.env None
                                (Sample.reply Sample.admin 30 77 (u16 "Hi"))
                                Sample.w_reply_refused
                                (or_introl eq_refl) eq_refl eq_refl)))).
Defined.

(** ** What no event ever does to the users table *)

Lemma row_kept_refl (r : UserRow) : row_kept r r.
Proof. repeat split. auto. Qed.

Lemma users_kept_refl (m : gmap Z UserRow) : users_kept m m.
Proof. intros uid row H. exists row. split; [exact H|apply row_kept_refl]. Qed.

Lemma users_kept_trans (m1 m2 m3 : gmap Z UserRow) :
  users_kept m1 m2 -> users_kept m2 m3 -> users_kept m1 m3.
Proof.
  intros H12 H23 uid row H.
  destruct (H12 uid row H) as (r2 & H2 & Hb2 & Ha2 & Hc2 & Hv2).
  destruct (H23 uid r2 H2) as (r3 & H3 & Hb3 & Ha3 & Hc3 & Hv3).
  exists r3. split; [exact H3|]. repeat split; try congruence. auto.
Qed.

Lemma users_kept_alter (f : UserRow -> UserRow) (k : Z) (m : gmap Z UserRow) :
  (forall r, row_kept r (f r)) -> users_kept m (alter f k m).
Proof.
  intros Hf uid row H. destruct (decide (uid = k)) as [->|Hne].
  - exists (f row). split; [now rewrite lookup_alter_eq, H|apply Hf].
  - exists row. split; [now rewrite lookup_alter_ne by congruence|].
    apply row_kept_refl.
Qed.

Lemma upsertUser_users_kept (user : TgUser) (w : World) :
  users_kept (users w) (users (snd (upsertUser user w))).
Proof.
  intros uid row H. rewrite upsertUser_users.
  destruct (from_username user);
    [|exists row; split; [exact H|apply row_kept_refl]].
  destruct (decide (uid = id user)) as [->|Hne].
  - rewrite H, lookup_insert_eq. eexists. split; [reflexivity|].
    repeat split. auto.
  - exists row. split; [|apply row_kept_refl].
    destruct (users w !! id user); now rewrite lookup_insert_ne by congruence.
Qed.

Lemma handleCallback_users (callback : Callback) (env : Env) (w : World) :
  let w' := snd (handleCallback callback env w) in
  users w' = users w
  \/ users w' = alter set_verified (id (cb_from callback)) (users w)
  \/ exists code,
       users w' = alter (set_language code) (id (cb_from callback)) (users w).
Proof. unfold handleCallback, sendLanguageSelection. crush; eauto. Qed.

Lemma handlePrivateMessage_users (message : Message) (env : Env) (w : World) :
  let w' := snd (handlePrivateMessage message env w) in
  users w' = users w \/ users w' = users (snd (upsertUser (from message) w)).
Proof.
  cbv zeta. unfold handlePrivateMessage. cbv zeta.
  destruct (bool_decide _).
  - left. unfold adminReply, getOriginalSender. crush; reflexivity.
  - destruct (from_username (from message)) as [name|] eqn:Hname.
    + right. rewrite (bind_upsertUser _ name) by exact Hname.
      remember (snd (upsertUser (from message) w)) as w1 eqn:Hw1. clear Hw1.
      unfold forwardToAdmin, translateText, saveMessageMapping,
        sendLanguageSelection.
      cbv zeta. crush; reflexivity.
    + left. now rewrite bind_upsertUser_no_username.
Qed.

Lemma webhook_users_kept (env : Env) (secret : option jsstring)
    (update : Update) (w : World) :
  users_kept (users w) (users (snd (webhook env secret update w))).
Proof.
  unfold webhook. destruct (_ && _); [apply users_kept_refl|].
  cbn [snd]. rewrite snd_try_catch_ret.
  destruct update as [m|c|].
  - destruct (_ && _).
    + rewrite handleStart_users. apply upsertUser_users_kept.
    + destruct (handlePrivateMessage_users m env w) as [-> | ->];
        [apply users_kept_refl|apply upsertUser_users_kept].
  - destruct (handleCallback_users c env w) as [-> | [-> | [code ->]]].
    + apply users_kept_refl.
    + apply users_kept_alter. intros r. repeat split. simpl. discriminate.
    + apply users_kept_alter. intros r. repeat split. auto.
  - apply users_kept_refl.
Qed.

(** X10.  Whatever events arrive, in whatever order and whatever the
    network answers, a user's row is never deleted, its block flag, block
    date and creation date never change, and a verified user never becomes
    unverified. *)
Theorem events_keep_rows_and_flags
    (events : list Event) (w : World) (uid : Z) (row : UserRow) :
  users w !! uid = Some row ->
  exists row', users (run_events events w) !! uid = Some row'
    /\ is_blocked row' = is_blocked row
    /\ blocked_at row' = blocked_at row
    /\ created_at row' = created_at row
    /\ (is_verified row <> 0 -> is_verified row' <> 0).
Proof.
  assert (Hkept : forall w, users_kept (users w) (users (run_events events w))).
  { induction events as [|[[env secret] update] events IH]; intros w0.
    - apply users_kept_refl.
    - unfold run_events in *. simpl.
      eapply users_kept_trans; [apply webhook_users_kept|apply IH]. }
  intros Hrow. exact (Hkept w uid row Hrow).
Qed.

Lemma events_keep_rows_and_flags_witness :
  exists row',
    users (run_events
             [ (Sample.env, None, UMessage Sample.start);
               (Sample.env, None,
                UCallback (Sample.button_press Sample.bo (u16 "verify_human")));
               (Sample.env, None, UMessage Sample.hello) ]
             Sample.w_blocked) !! 7 = Some row'
    /\ is_blocked row' = 1.
Proof.
  destruct (events_keep_rows_and_flags
              [ (Sample.env, None, UMessage Sample.start);
                (Sample.env, None,
                 UCallback (Sample.button_press Sample.bo (u16 "verify_human")));
                (Sample.env, None, UMessage Sample.hello) ]
              Sample.w_blocked 7 (Sample.row_of Sample.bo 0 None 1) eq_refl)
    as (row' & Hrow & Hb & _).
  exists row'. now split.
Defined.

(** ** What no event ever does to table [messages] *)

Lemma handlePrivateMessage_messages_guest
    (message : Message) (env : Env) (w : World) :
  let w' := snd (handlePrivateMessage message env w) in
  messages w' = messages w
  \/ (id (from message) <> ADMIN_USER_ID env
      /\ exists k, messages w' = messages w ++ [mapping k message (now w)]).
Proof.
  intros w'. destruct (decide (id (from message) = ADMIN_USER_ID env)) as [Ha|Hg].
  - left. subst w'. unfold handlePrivateMessage. cbv zeta.
    rewrite bool_decide_eq_true_2 by exact Ha.
    unfold adminReply, getOriginalSender. crush; reflexivity.
  - destruct (handlePrivateMessage_messages message env w) as [H|H];
      [now left|right; now split].
Qed.

Lemma webhook_messages_provenance (env : Env) (secret : option jsstring)
    (update : Update) (w : World) :
  let w' := snd (webhook env secret update w) in
  messages w' = messages w
  \/ exists m k, update = UMessage m
       /\ id (from m) <> ADMIN_USER_ID env
       /\ messages w' = messages w ++ [mapping k m (now w)].
Proof.
  cbv zeta. unfold webhook. destruct (_ && _); [now left|].
  cbn [snd]. rewrite snd_try_catch_ret.
  destruct update as [m|c|].
  - destruct (_ && _).
    + left. apply handleStart_messages.
    + destruct (handlePrivateMessage_messages_guest m env w)
        as [H | (Hg & k & H)]; [now left|right; eauto].
  - left. apply handleCallback_messages.
  - now left.
Qed.

(** X11.  Table [messages] is append-only, and every mapping in it points
    at a guest message that was received: over any sequence of events the
    rows already stored stay as they are and where they are, and each row
    added carries the sender id and message id of a message in the
    sequence whose sender was not the admin of the bindings in force. *)
Theorem mappings_are_append_only_and_grounded (events : list Event) (w : World) :
  exists rows,
    messages (run_events events w) = messages w ++ rows
    /\ forall r, r ∈ rows ->
         exists env secret m,
           (env, secret, UMessage m) ∈ events
           /\ id (from m) <> ADMIN_USER_ID env
           /\ user_id r = id (from m)
           /\ guest_message_id r = message_id m.
Proof.
  revert w. induction events as [|[[env secret] update] events IH]; intros w.
  - exists []. split; [now rewrite app_nil_r|].
    intros r Hr. now apply elem_of_nil in Hr.
  - unfold run_events in *. simpl.
    destruct (IH (snd (webhook env secret update w))) as (rows & -> & Hrows).
    assert (Hlift : forall r, r ∈ rows ->
              exists env0 secret0 m,
                (env0, secret0, UMessage m) ∈ (env, secret, update) :: events
                /\ id (from m) <> ADMIN_USER_ID env0
                /\ user_id r = id (from m)
                /\ guest_message_id r = message_id m).
    { intros r Hr. destruct (Hrows r Hr) as (e & s & m & Hin & Hrest).
      exists e, s, m. split; [now right|exact Hrest]. }
    destruct (webhook_messages_provenance env secret update w)
      as [-> | (m & k & -> & Hg & ->)].
    + exists rows. now split.
    + exists (mapping k m (now w) :: rows). split; [now rewrite <- app_assoc|].
      intros r Hr. apply elem_of_cons in Hr as [-> | Hr]; [|now apply Hlift].
      exists env, secret, m. split; [left|]. now repeat split.
Qed.

(** X12.  Resolution is stable: once a key resolves to a sender and
    message, it resolves to the same pair after any later events. *)
Theorem resolution_is_stable
    (events : list Event) (w : World) (k : Z) (p : Z * Z) :
  fst (getOriginalSender k w) = Ok (Some p) ->
  fst (getOriginalSender k (run_events events w)) = Ok (Some p).
Proof.
  destruct (run_events_messages events w) as [rows Hrows].
  unfold getOriginalSender. run. rewrite Hrows, find_key_app.
  destruct (find _ (messages w)); [auto|discriminate].
Qed.

Lemma resolution_is_stable_witness :
  fst (getOriginalSender 55
         (run_events [ (Sample.env, None, UMessage Sample.hello) ]
            Sample.w_reply_refused))
  = Ok (Some (7, 9)).
Proof.
  exact (resolution_is_stable [ (Sample.env, None, UMessage Sample.hello) ]
           Sample.w_reply_refused 55 (7, 9) eq_refl).
Defined.

(** ** Dispatch *)



(** ** Faults *)

Ltac network_fault :=
  intros Hthrow; try discriminate Hthrow; injection Hthrow as <-;
  match goal with
  | H : net _ ?n = Rejects ?e |- exists _, _ /\ net _ _ = Rejects ?e =>
      exists n; split; [rewrite ?length_app; cbn [length]; lia|exact H]
  end.

Lemma handleStart_faults (message : Message) (env : Env) (w : World)
    (name e : jsstring) :
  from_username (from message) = Some name ->
  fst (handleStart message env w) = Throw e ->
  exists n, (length (requests w) <= n
             < length (requests (snd (handleStart message env w))))%nat
            /\ net w n = Rejects e.
Proof.
  intros Hname. unfold handleStart. cbv zeta.
  rewrite (bind_upsertUser _ name) by exact Hname.
  pose proof (upsertUser_outside (from message) w) as (_ & Hr & _ & Hn & _).
  pose proof (upsertUser_lookup (from message) name w Hname) as Hl.
  remember (snd (upsertUser (from message) w)) as w1 eqn:Hw1. clear Hw1.
  rewrite <- Hr, <- Hn. unfold getUser, sendLanguageSelection. run. rewrite Hl.
  crush; network_fault.
Qed.

Lemma forwardToAdmin_faults (message : Message) (env : Env) (lang : jsstring)
    (w : World) (e : jsstring) :
  fst (forwardToAdmin message env lang w) = Throw e ->
  exists n, (length (requests w) <= n
             < length (requests (snd (forwardToAdmin message env lang w))))%nat
            /\ net w n = Rejects e.
Proof.
  unfold forwardToAdmin, translateText, saveMessageMapping. cbv zeta.
  crush; network_fault.
Qed.

Lemma handlePrivateMessage_faults (message : Message) (env : Env) (w : World)
    (e : jsstring) :
  (id (from message) = ADMIN_USER_ID env
   \/ exists name, from_username (from message) = Some name) ->
  fst (handlePrivateMessage message env w) = Throw e ->
  exists n, (length (requests w) <= n
             < length (requests (snd (handlePrivateMessage message env w))))%nat
            /\ net w n = Rejects e.
Proof.
  intros Hsender. unfold handlePrivateMessage. cbv zeta.
  destruct (bool_decide _) eqn:Hadmin.
  - unfold adminReply, getOriginalSender. crush; network_fault.
  - destruct Hsender as [Ha | [name Hname]];
      [apply bool_decide_eq_false in Hadmin; contradiction|].
    rewrite (bind_upsertUser _ name) by exact Hname.
    pose proof (upsertUser_outside (from message) w) as (_ & Hr & _ & Hn & _).
    remember (snd (upsertUser (from message) w)) as w1 eqn:Hw1. clear Hw1.
    rewrite <- Hr, <- Hn.
    destruct (dbUser_is_blocked _); [crush; network_fault|].
    destruct (negb _); [crush; network_fault|].
    destruct (dbUser_language _) as [[|c l]|];
      [ unfold sendLanguageSelection; crush; network_fault
      | apply forwardToAdmin_faults
      | unfold sendLanguageSelection; crush; network_fault ].
Qed.

(** A sender without a username is stopped by the upsert: the start
    command and, for anyone but the admin, the message handler end with
    the store's type error, having stored and sent nothing. *)
Lemma no_username_faults (message : Message) (env : Env) (w : World) :
  from_username (from message) = None ->
  handleStart message env w = (Throw D1_TYPE_ERROR, w)
  /\ (id (from message) <> ADMIN_USER_ID env ->
      handlePrivateMessage message env w = (Throw D1_TYPE_ERROR, w)).
Proof.
  intros Hname. split.
  - unfold handleStart. cbv zeta. now apply bind_upsertUser_no_username.
  - intros Hguest. unfold handlePrivateMessage. cbv zeta.
    rewrite bool_decide_eq_false_2 by exact Hguest.
    now apply bind_upsertUser_no_username.
Qed.

(** X14.  The two message handlers fault for two reasons only.  Whenever
    [handleStart] or [handlePrivateMessage] ends with an exception, either
    a request issued during that very run was rejected by the network and
    the exception carries the message of that rejection, or the sender has
    no username (and, for [handlePrivateMessage], is not the admin) and the
    exception is the store's type error raised by the upsert.  In
    particular the row read back after a successful upsert is never
    missing. *)
Theorem message_handlers_fault_on_network_or_missing_username
    (message : Message) (env : Env) (w : World) (e : jsstring) :
  (fst (handleStart message env w) = Throw e ->
   (from_username (from message) = None /\ e = D1_TYPE_ERROR)
   \/ exists n, (length (requests w) <= n
                 < length (requests (snd (handleStart message env w))))%nat
                /\ net w n = Rejects e)
  /\ (fst (handlePrivateMessage message env w) = Throw e ->
      (from_username (from message) = None
       /\ id (from message) <> ADMIN_USER_ID env /\ e = D1_TYPE_ERROR)
      \/ exists n, (length (requests w) <= n
                    < length (requests (snd (handlePrivateMessage message env w))))%nat
                   /\ net w n = Rejects e).
Proof.
  destruct (from_username (from message)) as [name|] eqn:Hname.
  - split; intros Hthrow; right.
    + exact (handleStart_faults message env w name e Hname Hthrow).
    + apply handlePrivateMessage_faults; eauto.
  - destruct (no_username_faults message env w Hname) as [Hstart Hmsg]. split.
    + rewrite Hstart. intros [= <-]. now left.
    + destruct (decide (id (from message) = ADMIN_USER_ID env)) as [Ha|Hg].
      * intros Hthrow. right. apply handlePrivateMessage_faults; auto.
      * rewrite (Hmsg Hg). intros [= <-]. now left.
Qed.

(** X21.  A sender without a username cannot use the bot.  Every webhook
    message of such a sender, the start command included, is answered OK
    and leaves the whole world as it was: no row is created or refreshed,
    nothing is relayed and no prompt is sent.  (Only a sender who is the
    admin and does not issue the start command is exempt: that path does
    not upsert.) *)
Theorem sender_without_username_is_ignored
    (env : Env) (secret : option jsstring) (m : Message) (w : World) :
  authorized env secret ->
  from_username (from m) = None ->
  id (from m) <> ADMIN_USER_ID env
  \/ truthy_str (text m) && startsWith (default [] (text m)) (u16 "/start")
     = true ->
  webhook env secret (UMessage m) w = ((u16 "OK", 200), w).
Proof.
  intros Hauth Hname Hcase. unfold webhook.
  rewrite (authorized_passes _ _ Hauth).
  destruct (no_username_faults m env w Hname) as [Hstart Hmsg].
  destruct (_ && _) eqn:Hs.
  - unfold try_catch. now rewrite Hstart.
  - destruct Hcase as [Hg | Hc]; [|discriminate].
    unfold try_catch. now rewrite (Hmsg Hg).
Qed.

Lemma sender_without_username_is_ignored_witness :
  webhook Sample.env None (UMessage Sample.nihao)
    (Sample.w_ready [Sample.delivered 55])
  = ((u16 "OK", 200), Sample.w_ready [Sample.delivered 55]).
Proof.
  assert (Hguest : id (from Sample.nihao) <> ADMIN_USER_ID Sample.env)
    by (vm_compute; discriminate).
  exact (sender_without_username_is_ignored Sample.env None Sample.nihao
           (Sample.w_ready [Sample.delivered 55])
           (or_introl eq_refl) eq_refl (or_introl Hguest)).
Defined.

(** ** Onboarding, step by step *)

(** X15.  The action string [lang_] carries an empty code, and the empty
    code is stored like any other.  An empty language counts as no language:
    the next message of that guest (verified, not blocked, with a
    username), who had been ready or not, is answered with the language
    menu and is not relayed. *)
Theorem empty_language_code_reopens_selection
    (callback : Callback) (message : Message) (env : Env) (w : World)
    (row : UserRow) (name : jsstring) :
  cb_data callback = u16 "lang_" ->
  id (cb_from callback) = id (from message) ->
  id (from message) <> ADMIN_USER_ID env ->
  from_username (from message) = Some name ->
  users w !! id (from message) = Some row ->
  is_blocked row = 0 -> is_verified row <> 0 ->
  let w1 := snd (handleCallback callback env w) in
  let w2 := snd (handlePrivateMessage message env w1) in
  users w1 !! id (from message) = Some (set_language [] row)
  /\ messages w2 = messages w1
  /\ requests w2
     = requests w1
       ++ [ sendMessage (id (from message)) language_prompt None
              (Some language_keyboard) None ].
Proof.
  intros Hd Hid Hguest Hname Hrow Hb Hv w1 w2.
  assert (Hl : users w1 !! id (from message) = Some (set_language [] row)).
  { subst w1. rewrite (handleCallback_lang_users callback env w [] []).
    - now rewrite Hid, lookup_alter_eq, Hrow.
    - exact Hd.
    - rewrite Hd. reflexivity. }
  split; [exact Hl|].
  destruct (unready_guest_spec message env w1 name Hguest Hname)
    as (_ & Hm & Hr).
  { right. exists (set_language [] row). split; [exact Hl|]. split; [exact Hb|].
    now right. }
  split; [exact Hm|]. fold w2 in Hr. rewrite Hr, Hl. simpl.
  now rewrite (proj2 (Z.eqb_neq _ _) Hv).
Qed.

Lemma empty_language_code_reopens_selection_witness :
  requests (snd (handlePrivateMessage Sample.hello Sample.env
                   (snd (handleCallback (Sample.button_press Sample.bo (u16 "lang_"))
                           Sample.env (Sample.w_ready [])))))
  = requests (snd (handleCallback (Sample.button_press Sample.bo (u16 "lang_"))
                     Sample.env (Sample.w_ready [])))
    ++ [ sendMessage 7 language_prompt None (Some language_keyboard) None ].
Proof.
  assert (Hguest : id (from Sample.hello) <> ADMIN_USER_ID Sample.env)
    by (vm_compute; discriminate).
  assert (Hverified : is_verified (Sample.row_of Sample.bo 1 (Some (u16 "en")) 0) <> 0)
    by (vm_compute; discriminate).
  exact (proj2 (proj2 (empty_language_code_reopens_selection
                         (Sample.button_press Sample.bo (u16 "lang_"))
                         Sample.hello Sample.env (Sample.w_ready [])
                         (Sample.row_of Sample.bo 1 (Some (u16 "en")) 0)
                         (u16 "bo")
                         eq_refl eq_refl Hguest eq_refl eq_refl eq_refl
                         Hverified))).
Defined.

(** X16.  Onboarding commits its state whatever the network does.  A
    sender with a username and without a row who issues the start command,
    presses the
    verification button and then a language button ends with a row that is
    verified, carries the chosen code and is not blocked, even if every
    acknowledgment on the way failed to be delivered. *)
Theorem onboarding_reaches_ready
    (message : Message) (verify select : Callback) (code name : jsstring)
    (env : Env) (w : World) :
  from_username (from message) = Some name ->
  users w !! id (from message) = None ->
  id (cb_from verify) = id (from message) ->
  id (cb_from select) = id (from message) ->
  cb_data verify = u16 "verify_human" ->
  cb_data select = u16 "lang_" ++ code ->
  UNDERSCORE ∉ code ->
  let w1 := snd (handleStart message env w) in
  let w2 := snd (handleCallback verify env w1) in
  let w3 := snd (handleCallback select env w2) in
  users w3 !! id (from message)
  = Some {| username := Some name;
            first_name := from_first_name (from message);
            is_verified := 1; language := Some code; is_blocked := 0;
            blocked_at := None; created_at := now w |}.
Proof.
  intros Hname Hnew Hv Hs Hdv Hds Hcode w1 w2 w3.
  assert (H1 : users w1 !! id (from message)
               = Some (new_row (from message) (now w))).
  { subst w1. rewrite handleStart_users.
    now rewrite (upsertUser_lookup _ name) by exact Hname; rewrite Hnew. }
  assert (H2 : users w2 !! id (from message)
               = Some (set_verified (new_row (from message) (now w)))).
  { subst w2. rewrite handleCallback_verify_users by exact Hdv.
    now rewrite Hv, lookup_alter_eq, H1. }
  subst w3. rewrite (handleCallback_lang_users select env w2 code code Hds).
  - rewrite Hs, lookup_alter_eq, H2. unfold new_row. rewrite Hname. reflexivity.
  - rewrite Hds. now apply split_lang_code.
Qed.

Lemma onboarding_reaches_ready_witness :
  users (snd (handleCallback (Sample.button_press Sample.cy (u16 "lang_ja"))
                Sample.env
                (snd (handleCallback
                        (Sample.button_press Sample.cy (u16 "verify_human"))
                        Sample.env
                        (snd (handleStart (Sample.text_message Sample.cy 2
                                             (u16 "/start"))
                                Sample.env Sample.w_unverified)))))) !! 9
  = Some {| username := Some (u16 "cy"); first_name := u16 "Cy";
            is_verified := 1; language := Some (u16 "ja"); is_blocked := 0;
            blocked_at := None; created_at := 1700000000000 |}.
Proof.
  assert (Hcode : UNDERSCORE ∉ u16 "ja").
  { vm_compute. intros H.
    repeat (apply elem_of_cons in H as [H|H]; [discriminate|]).
    now apply elem_of_nil in H. }
  exact (onboarding_reaches_ready
           (Sample.text_message Sample.cy 2 (u16 "/start"))
           (Sample.button_press Sample.cy (u16 "verify_human"))
           (Sample.button_press Sample.cy (u16 "lang_ja")) (u16 "ja") (u16 "cy")
           Sample.env Sample.w_unverified
           eq_refl eq_refl eq_refl eq_refl eq_refl eq_refl Hcode).
Defined.

(** ** Successful relays *)



(** ** Blocked guests, verification, unknown senders *)

(** X18.  A message from a blocked guest with a username (one that is not
    the start command) is dropped in silence: nothing is sent to anyone and
    no mapping is written.  The guest's stored names are still refreshed,
    as for any known sender. *)
Theorem blocked_guest_message_is_dropped
    (message : Message) (env : Env) (w : World) (row : UserRow)
    (name : jsstring) :
  id (from message) <> ADMIN_USER_ID env ->
  from_username (from message) = Some name ->
  users w !! id (from message) = Some row ->
  is_blocked row <> 0 ->
  let w' := snd (handlePrivateMessage message env w) in
  fst (handlePrivateMessage message env w) = Ok tt
  /\ requests w' = requests w
  /\ messages w' = messages w
  /\ users w' = <[id (from message) := set_names (from message) row]> (users w).
Proof.
  intros Hguest Hname Hrow Hb. cbv zeta. unfold handlePrivateMessage. cbv zeta.
  rewrite bool_decide_eq_false_2 by exact Hguest.
  rewrite (bind_upsertUser _ name) by exact Hname.
  pose proof (upsertUser_outside (from message) w) as (Hm & Hr & _).
  pose proof (upsertUser_users (from message) w) as Hu.
  rewrite Hname, Hrow in *. unfold dbUser_is_blocked.
  rewrite (proj2 (Z.eqb_neq _ _) Hb). cbn [negb]. unfold ret. cbn [fst snd].
  now repeat split.
Qed.

Lemma blocked_guest_message_is_dropped_witness :
  requests (snd (handlePrivateMessage Sample.hello Sample.env Sample.w_blocked))
  = []
  /\ messages (snd (handlePrivateMessage Sample.hello Sample.env Sample.w_blocked))
     = [].
Proof.
  assert (Hguest : id (from Sample.hello) <> ADMIN_USER_ID Sample.env)
    by (vm_compute; discriminate).
  assert (Hblocked : is_blocked (Sample.row_of Sample.bo 0 None 1) <> 0)
    by (vm_compute; discriminate).
  destruct (blocked_guest_message_is_dropped Sample.hello Sample.env
              Sample.w_blocked (Sample.row_of Sample.bo 0 None 1) (u16 "bo")
              Hguest eq_refl eq_refl Hblocked) as (_ & Hr & Hm & _).
  split; [exact Hr|exact Hm].
Defined.

(** X19.  Verification commits before it is acknowledged.  The callback
    sets the flag first; then come, in this order, the answer to the
    callback, the edit of the prompt and the language menu, and the first
    of these that throws ends the sequence while the flag stays set. *)
Theorem verify_human_commits_then_acknowledges
    (callback : Callback) (env : Env) (w : World) :
  cb_data callback = u16 "verify_human" ->
  let w' := snd (handleCallback callback env w) in
  let uid := id (cb_from callback) in
  users w' = alter set_verified uid (users w)
  /\ requests w'
     = requests w
       ++ answerCallbackQuery (cb_id callback) (u16 "Verified!")
       :: match net w (length (requests w)) with
          | Rejects _ => []
          | Responds _ =>
              editMessageText uid (cb_message_id callback) verified_text
              :: match net w (S (length (requests w))) with
                 | Rejects _ => []
                 | Responds _ =>
                     [ sendMessage uid language_prompt None
                         (Some language_keyboard) None ]
                 end
          end.
Proof.
  intros Hd. cbv zeta. split; [now apply handleCallback_verify_users|].
  unfold handleCallback, sendLanguageSelection. rewrite Hd.
  rewrite bool_decide_eq_true_2 by reflexivity.
  replace (S (length (requests w)))
    with (length (requests w
                  ++ [answerCallbackQuery (cb_id callback) (u16 "Verified!")]))
    by (rewrite length_app; simpl; lia).
  crush; rewrite <- ?app_assoc; reflexivity.
Qed.

Lemma verify_human_commits_then_acknowledges_witness :
  is_verified
    <$> users (snd (handleCallback
                      (Sample.button_press Sample.bo (u16 "verify_human"))
                      Sample.env
                      (Sample.world {[ 7 := Sample.row_of Sample.bo 0 None 0 ]} []
                         [Rejects (u16 "network down")]))) !! 7
  = Some 1
  /\ requests (snd (handleCallback
                      (Sample.button_press Sample.bo (u16 "verify_human"))
                      Sample.env
                      (Sample.world {[ 7 := Sample.row_of Sample.bo 0 None 0 ]} []
                         [Rejects (u16 "network down")])))
     = [ answerCallbackQuery (u16 "cbq1") (u16 "Verified!") ].
Proof.
  destruct (verify_human_commits_then_acknowledges
              (Sample.button_press Sample.bo (u16 "verify_human")) Sample.env
              (Sample.world {[ 7 := Sample.row_of Sample.bo 0 None 0 ]} []
                 [Rejects (u16 "network down")]) eq_refl) as [Hu Hr].
  split; [now rewrite Hu|exact Hr].
Defined.

Lemma alter_missing (f : UserRow -> UserRow) (k : Z) (m : gmap Z UserRow) :
  m !! k = None -> alter f k m = m.
Proof.
  intros Hk. apply map_eq. intros i. destruct (decide (i = k)) as [->|Hne].
  - now rewrite lookup_alter_eq, Hk.
  - now rewrite lookup_alter_ne by congruence.
Qed.

(** X20.  Callbacks never create rows.  A callback from a sender without
    a row leaves the users table exactly as it was, whatever its action
    string; a [verify_human] callback is answered "Verified!" all the
    same. *)
Theorem callback_without_row_stores_nothing
    (callback : Callback) (env : Env) (w : World) :
  users w !! id (cb_from callback) = None ->
  let w' := snd (handleCallback callback env w) in
  users w' = users w
  /\ (cb_data callback = u16 "verify_human" ->
      exists rest,
        requests w'
        = requests w
          ++ answerCallbackQuery (cb_id callback) (u16 "Verified!") :: rest).
Proof.
  intros Hnew w'. split.
  - destruct (handleCallback_users callback env w) as [H | [H | [code H]]];
      fold w' in H; rewrite H; [reflexivity| |]; now apply alter_missing.
  - intros Hd. subst w'.
    unfold handleCallback, sendLanguageSelection. rewrite Hd.
    rewrite bool_decide_eq_true_2 by reflexivity.
    crush; rewrite <- ?app_assoc; cbn [app]; eauto.
Qed.

Lemma callback_without_row_stores_nothing_witness :
  users (snd (handleCallback
                (Sample.button_press Sample.ann (u16 "verify_human"))
                Sample.env Sample.w_unverified))
  = users Sample.w_unverified.
Proof.
  exact (proj1 (callback_without_row_stores_nothing
                  (Sample.button_press Sample.ann (u16 "verify_human"))
                  Sample.env Sample.w_unverified eq_refl)).
Defined.
